(** * silx.io.spectoh5: writing a SpecFile tree into an HDF5 container

    Shallow embedding of [src/silx/io/spectoh5.py] ([write_spec_to_h5] with
    its two closures [create_link] and [append_spec_member_to_h5], and
    [convert]) and the properties of the converter stated over it.

    Layout:
    - [PyStr]: the [str] methods the module calls;
    - [Re]: regular expressions and the two patterns given to [re.match];
    - the HDF5 target, the SpecFile tree, exceptions, the logger;
    - the converter itself, closure variables as Section variables;
    - the properties. *)

From Stdlib Require Import Ascii String ZArith Lia.
From stdpp Require Import base option list strings gmap fin_maps.

Local Open Scope string_scope.

(** ** Python [str] methods *)

Module PyStr.

(** [s.endswith(suffix)] *)
Fixpoint endswith (s suffix : string) : bool :=
  if String.eqb s suffix then true
  else match s with
       | EmptyString => false
       | String _ s' => endswith s' suffix
       end.

(** [s.lstrip("/")] with a one-character argument [c]: every leading [c]
    goes. *)
Fixpoint lstrip (c : ascii) (s : string) : string :=
  match s with
  | String a s' => if Ascii.eqb a c then lstrip c s' else s
  | EmptyString => EmptyString
  end.

(** [s.replace(old, new)]: the occurrences of [old] are found scanning
    from the left, each found occurrence is replaced and the scan resumes
    after it (occurrences are non-overlapping).  [skip] counts the
    characters of the occurrence just replaced that are still to be passed
    over.  An empty [old] occurs before every character and at the end:
    Python inserts [new] there and keeps the characters. *)
Fixpoint replace_from (skip : nat) (old new s : string) : string :=
  match s with
  | EmptyString =>
      match skip, old with
      | O, EmptyString => new
      | _, _ => EmptyString
      end
  | String a s' =>
      match skip with
      | S k => replace_from k old new s'
      | O =>
          if String.prefix old s
          then match old with
               | EmptyString => new ++ String a (replace_from O old new s')
               | String _ _ =>
                   new ++ replace_from (Nat.pred (String.length old)) old new s'
               end
          else String a (replace_from O old new s')
      end
  end.

Definition replace (s old new : string) : string := replace_from 0 old new s.

(** [old in s] *)
Fixpoint contains (old s : string) : bool :=
  String.prefix old s ||
  match s with
  | EmptyString => false
  | String _ s' => contains old s'
  end.

End PyStr.

(** ** Regular expressions *)

Module Re.

(** The fragment of [re] syntax the two patterns use: literals, character
    sets, [.], concatenation, [+], [*], [?].  Groups only capture, and the
    captures are never read. *)
Inductive regex : Type :=
| Void
| Eps
| Cls (p : ascii → bool)
| Seq (r1 r2 : regex)
| Alt (r1 r2 : regex)
| Star (r : regex).

Definition is_newline (a : ascii) : bool := Ascii.eqb a "010"%char.

(** [[0-9]] *)
Definition is_digit (a : ascii) : bool :=
  (48 <=? nat_of_ascii a)%nat && (nat_of_ascii a <=? 57)%nat.

(** [.] (no DOTALL flag): anything but a newline *)
Definition dot : regex := Cls (λ a, negb (is_newline a)).
Definition chr (c : ascii) : regex := Cls (Ascii.eqb c).
Definition digit : regex := Cls is_digit.
Definition plus (r : regex) : regex := Seq r (Star r).
Definition opt (r : regex) : regex := Alt r Eps.

Fixpoint lit (s : string) : regex :=
  match s with
  | EmptyString => Eps
  | String a s' => Seq (chr a) (lit s')
  end.

(** [$] (no MULTILINE flag) holds at the end of the string and just before
    a newline that is the last character.  As the last item of a pattern it
    is the optional consumption of that final newline. *)
Definition dollar : regex := opt (Cls is_newline).

Fixpoint nullable (r : regex) : bool :=
  match r with
  | Void => false
  | Eps => true
  | Cls _ => false
  | Seq r1 r2 => nullable r1 && nullable r2
  | Alt r1 r2 => nullable r1 || nullable r2
  | Star _ => true
  end.

(** Brzozowski derivative *)
Fixpoint deriv (a : ascii) (r : regex) : regex :=
  match r with
  | Void => Void
  | Eps => Void
  | Cls p => if p a then Eps else Void
  | Seq r1 r2 =>
      if nullable r1
      then Alt (Seq (deriv a r1) r2) (deriv a r2)
      else Seq (deriv a r1) r2
  | Alt r1 r2 => Alt (deriv a r1) (deriv a r2)
  | Star r1 => Seq (deriv a r1) (Star r1)
  end.

Fixpoint accepts (r : regex) (s : string) : bool :=
  match s with
  | EmptyString => nullable r
  | String a s' => accepts (deriv a r) s'
  end.

(** [re.match(pattern, s)] is not [None], for a [pattern] that ends in [$]:
    the match is anchored at the start by [re.match] and at the end by [$],
    so it is a match of all of [s]. *)
Definition re_match (pattern : regex) (s : string) : bool := accepts pattern s.

(** [r".*/([0-9]+\.[0-9]+)/instrument/mca_([0-9]+)/?"], common to both
    patterns *)
Definition mca_prefix : regex :=
  Seq (Star dot)
 (Seq (chr "/")
 (Seq (plus digit) (Seq (chr ".") (Seq (plus digit)
 (Seq (lit "/instrument/mca_")
 (Seq (plus digit)
      (opt (chr "/")))))))).

(** [r".*/([0-9]+\.[0-9]+)/instrument/mca_([0-9]+)/?data$"] *)
Definition mca_data_pattern : regex := Seq mca_prefix (Seq (lit "data") dollar).

(** [r".*/([0-9]+\.[0-9]+)/instrument/mca_([0-9]+)/?$"] *)
Definition mca_group_pattern : regex := Seq mca_prefix dollar.

(** The strings a pattern denotes, to reason about [accepts]. *)
Inductive matches : regex → string → Prop :=
| MEps : matches Eps ""
| MCls p a : p a = true → matches (Cls p) (String a "")
| MSeq r1 r2 s1 s2 :
    matches r1 s1 → matches r2 s2 → matches (Seq r1 r2) (s1 ++ s2)
| MAltL r1 r2 s : matches r1 s → matches (Alt r1 r2) s
| MAltR r1 r2 s : matches r2 s → matches (Alt r1 r2) s
| MStarNil r : matches (Star r) ""
| MStarApp r s1 s2 :
    matches r s1 → matches (Star r) s2 → matches (Star r) (s1 ++ s2).

(** Every character of [s] satisfies [p]. *)
Fixpoint all_chars (p : ascii → bool) (s : string) : bool :=
  match s with
  | EmptyString => true
  | String a s' => p a && all_chars p s'
  end.

(** A non-empty run of [[0-9]]. *)
Definition digits (s : string) : bool :=
  negb (String.eqb s "") && all_chars is_digit s.

End Re.

(** ** SpecFile side (silx.io.specfileh5) *)

(** The members [SpecFileH5.visititems] hands to its callback.  The two
    link classes are tested first by the callback, as they are here. *)
Inductive SpecMember (Data : Type) : Type :=
| SpecFileH5LinkToGroup
| SpecFileH5LinkToDataset
| SpecFileH5Dataset (shape : list nat) (data : Data)
| SpecFileH5Group.
Arguments SpecFileH5LinkToGroup {Data}.
Arguments SpecFileH5LinkToDataset {Data}.
Arguments SpecFileH5Dataset {Data} shape data.
Arguments SpecFileH5Group {Data}.

(** Modelled from the spec: [SpecFileH5] and its [visititems], of
    [silx/io/specfileh5.py], are not among the sources.  The spec asks of the
    source tree "a full-tree visitation that yields, for every node, its
    normalized path and a typed handle"; an instance is represented by the
    sequence of (name, member) pairs of that visitation, in its order. *)
Definition SpecFileH5 (Data : Type) : Type := list (string * SpecMember Data).

(** ** HDF5 side (h5py) *)

(** Keyword arguments of [create_dataset], values kept as the text of their
    Python literal. *)
Abbreviation Kwargs := (gmap string string).

Inductive H5Object (Data : Type) : Type :=
| H5Group
| H5Dataset (shape : list nat) (data : Data) (kwargs : Kwargs).
Arguments H5Group {Data}.
Arguments H5Dataset {Data} shape data kwargs.

(** What a name of the file is bound to: an object of the file (hard link)
    or a path to be resolved on access (soft link). *)
Inductive H5Link : Type :=
| HardLink (oid : nat)
| SoftLink (path : string).

(** The target container.  [h5py] is an external library; the file is
    modelled by the contract the converter relies on: a mutable mapping from
    path to entry with existence check, delete, create-group, create-dataset
    and link assignment.  Paths are the keys as the converter writes them,
    and objects are numbered in creation order, so that two names bound to
    the same number are hard links to one object.

    Left out of the model: the resolution of a path through groups and
    links (in [h5py] a creation or an assignment also creates the groups
    missing above its path, [/a/b/] names what [/a/b] names, and deleting a
    group takes away the names under it) and the errors of the library
    itself (a creation under a dataset is refused).  The properties below
    speak of the entries the converter names and of the calls it makes. *)
Record H5File (Data : Type) : Type := mkH5File {
  links : gmap string H5Link;
  objects : list (H5Object Data)
}.
Arguments mkH5File {Data} links objects.
Arguments links {Data} _.
Arguments objects {Data} _.

(** Handle of a created group or dataset: [handle.name] and its identity. *)
Record H5Handle : Type := mkH5Handle { name : string; oid_of : nat }.

(** The [name] of a handle is the absolute path of the object in the file,
    not the string the object was created with: created as
    [scans/1.1/title] or as [/scans//1.1/title/], a dataset is named
    [/scans/1.1/title]. *)
Module H5Path.

(** What stands between the separators of a path. *)
Fixpoint components (s : string) : list string :=
  match s with
  | EmptyString => [EmptyString]
  | String a s' =>
      if Ascii.eqb a "/" then EmptyString :: components s'
      else match components s' with
           | c :: cs => String a c :: cs
           | [] => [String a EmptyString]
           end
  end.

(** Empty components and [.] name nothing. *)
Definition names_member (c : string) : bool :=
  negb (String.eqb c "") && negb (String.eqb c ".").

Fixpoint from_root (cs : list string) : string :=
  match cs with
  | [] => EmptyString
  | c :: cs' => "/" ++ c ++ from_root cs'
  end.

Definition abspath (nm : string) : string :=
  match List.filter names_member (components nm) with
  | [] => "/"
  | cs => from_root cs
  end.

End H5Path.

(** ** Exceptions, logging, calls *)

Inductive Exn : Type :=
| ValueError (msg : string)
| IOError (msg : string)
| UnboundLocalError (var : string)
| OtherError (class msg : string).

Inductive Res (A : Type) : Type :=
| Ok (a : A)
| Raise (e : Exn).
Arguments Ok {A} a.
Arguments Raise {A} e.

Inductive LogLevel : Type := DEBUG | WARNING.
Definition LogRecord : Type := LogLevel * string.

(** Calls made on the collaborators, in the order they are made. *)
Inductive Call (Data : Type) : Type :=
| CallSpecFileH5 (path : string)
| CallFile (path mode : string)
| CallClose
| CallCreateDataset (name : string) (shape : list nat) (data : Data)
    (kwargs : Kwargs)
| CallCreateGroup (name : string)
| CallDelItem (name : string)
| CallSetItem (name : string) (l : H5Link).
Arguments CallSpecFileH5 {Data} path.
Arguments CallFile {Data} path mode.
Arguments CallClose {Data}.
Arguments CallCreateDataset {Data} name shape data kwargs.
Arguments CallCreateGroup {Data} name.
Arguments CallDelItem {Data} name.
Arguments CallSetItem {Data} name l.

(** State threaded through the traversal: the open target [h5f], the
    records sent to [logger], the calls made so far. *)
Record State (Data : Type) : Type := mkState {
  h5f : H5File Data;
  log : list LogRecord;
  calls : list (Call Data)
}.
Arguments mkState {Data} h5f log calls.
Arguments h5f {Data} _.
Arguments log {Data} _.
Arguments calls {Data} _.

(** Statements run in sequence on the state; an exception stops the run
    and keeps the state reached. *)
Definition M (Data A : Type) : Type := State Data → Res A * State Data.

Definition ret {Data A} (a : A) : M Data A := λ st, (Ok a, st).

Definition bind {Data A B} (m : M Data A) (k : A → M Data B) : M Data B :=
  λ st, match m st with
        | (Ok a, st') => k a st'
        | (Raise e, st') => (Raise e, st')
        end.

Definition raise {Data A} (e : Exn) : M Data A := λ st, (Raise e, st).

Declare Scope py_scope.
Delimit Scope py_scope with py.
Notation "x <- m ;; k" := (bind m (λ x, k))
  (at level 100, m at next level, k at level 200, right associativity)
  : py_scope.
Notation "m ;; k" := (bind m (λ _, k))
  (at level 100, k at level 200, right associativity) : py_scope.

Section Primitives.
Context {Data : Type}.
Local Open Scope py_scope.

Definition logger_debug (msg : string) : M Data unit :=
  λ st, (Ok tt, mkState (h5f st) (log st ++ [(DEBUG, msg)]) (calls st)).

Definition logger_warn (msg : string) : M Data unit :=
  λ st, (Ok tt, mkState (h5f st) (log st ++ [(WARNING, msg)]) (calls st)).

(** [name in h5f] *)
Definition h5_contains (nm : string) : M Data bool :=
  λ st, (Ok (bool_decide (is_Some (links (h5f st) !! nm))), st).

(** [del h5f[name]] *)
Definition h5_delitem (nm : string) : M Data unit :=
  λ st, (Ok tt,
         mkState (mkH5File (delete nm (links (h5f st))) (objects (h5f st)))
                 (log st) (calls st ++ [CallDelItem nm])).

(** [h5f[name] = target] and [h5f[name] = h5py.SoftLink(path)] *)
Definition h5_setitem (nm : string) (l : H5Link) : M Data unit :=
  λ st, (Ok tt,
         mkState (mkH5File (<[nm := l]> (links (h5f st))) (objects (h5f st)))
                 (log st) (calls st ++ [CallSetItem nm l])).

(** Binding a new object to [nm]; the object gets the next number, and the
    handle returned is named by the absolute path of [nm]. *)
Definition h5_new (nm : string) (o : H5Object Data) (c : Call Data)
  : M Data H5Handle :=
  λ st, let oid := length (objects (h5f st)) in
        (Ok (mkH5Handle (H5Path.abspath nm) oid),
         mkState (mkH5File (<[nm := HardLink oid]> (links (h5f st)))
                           (objects (h5f st) ++ [o]))
                 (log st) (calls st ++ [c])).

(** [h5f.create_dataset(name, data=obj, **kwargs)] *)
Definition h5_create_dataset (nm : string) (shape : list nat) (data : Data)
    (kwargs : Kwargs) : M Data H5Handle :=
  h5_new nm (H5Dataset shape data kwargs)
         (CallCreateDataset nm shape data kwargs).

(** [h5f.create_group(name)] *)
Definition h5_create_group (nm : string) : M Data H5Handle :=
  h5_new nm H5Group (CallCreateGroup nm).

(** Reading a local variable that is assigned on some paths only. *)
Definition local {A} (var : string) (v : option A) : M Data A :=
  match v with
  | Some a => ret a
  | None => raise (UnboundLocalError var)
  end.

End Primitives.

(** ** The converter *)

Section Closures.
Context {Data : Type}.
Local Open Scope py_scope.

(** Variables of [write_spec_to_h5] its two closures read ([h5f] is the
    state): [h5path] after the trailing separator is enforced,
    [create_dataset_args] after [None] became [{}]. *)
Variable h5path : string.
Variable overwrite_data : bool.
Variable link_type : string.
Variable create_dataset_args : Kwargs.

(** Lines 102-107 of [create_link]. *)
Definition bind_link (link_name : string) (target : H5Handle) : M Data unit :=
  if String.eqb link_type "hard" then
    h5_setitem link_name (HardLink (oid_of target))
  else if String.eqb link_type "soft" then
    h5_setitem link_name (SoftLink (name target))
  else raise (ValueError "link_type  must be 'hard' or 'soft'").

Definition create_link (link_name : string) (target : H5Handle) : M Data unit :=
  present <- h5_contains link_name ;;
  if negb present then
    logger_debug ("Creating link " ++ link_name ++ " -> " ++ name target) ;;
    bind_link link_name target
  else if overwrite_data then
    logger_warn ("Overwriting " ++ link_name ++ " with link to" ++ name target) ;;
    h5_delitem link_name ;;
    bind_link link_name target
  else
    logger_warn (link_name ++ " already exist. Can't create link to "
                 ++ name target).

Definition h5_name_of (spec_h5_name : string) : string :=
  h5path ++ PyStr.lstrip "/" spec_h5_name.

Definition append_spec_member_to_h5 (spec_h5_name : string)
    (obj : SpecMember Data) : M Data unit :=
  let h5_name := h5_name_of spec_h5_name in
  match obj with
  | SpecFileH5LinkToGroup | SpecFileH5LinkToDataset =>
      logger_debug ("Ignoring link: " ++ h5_name)
  | SpecFileH5Dataset shape data =>
      logger_debug ("Saving dataset: " ++ h5_name) ;;
      member_initially_exists <- h5_contains h5_name ;;
      (if overwrite_data && member_initially_exists then
         logger_warn ("Overwriting dataset: " ++ h5_name) ;;
         h5_delitem h5_name
       else ret tt) ;;
      ds <- (if overwrite_data || negb member_initially_exists then
               if bool_decide (shape = []) then
                 d <- h5_create_dataset h5_name shape data ∅ ;; ret (Some d)
               else
                 d <- h5_create_dataset h5_name shape data create_dataset_args ;;
                 ret (Some d)
             else ret None) ;;
      (if Re.re_match Re.mca_data_pattern h5_name then
         let link_name := PyStr.replace h5_name "instrument" "measurement" in
         target <- local "ds" ds ;;
         create_link link_name target
       else ret tt) ;;
      (if negb overwrite_data && member_initially_exists then
         logger_warn ("Ignoring existing dataset: " ++ h5_name)
       else ret tt)
  | SpecFileH5Group =>
      present <- h5_contains h5_name ;;
      grp <- (if negb present then
                logger_debug ("Creating group: " ++ h5_name) ;;
                g <- h5_create_group h5_name ;; ret (Some g)
              else ret None) ;;
      if Re.re_match Re.mca_group_pattern h5_name then
        let link_name :=
          PyStr.replace h5_name "instrument" "measurement" ++ "/info" in
        target <- local "grp" grp ;;
        create_link link_name target
      else ret tt
  end.

(** [sfh5.visititems(append_spec_member_to_h5)]: the callback returns
    [None] on every path, so the visit never stops early on its own. *)
Fixpoint visititems (sfh5 : SpecFileH5 Data) : M Data unit :=
  match sfh5 with
  | [] => ret tt
  | (spec_h5_name, obj) :: rest =>
      append_spec_member_to_h5 spec_h5_name obj ;;
      visititems rest
  end.

End Closures.

(** What a call of [write_spec_to_h5] or [convert] leaves: how it ended, the
    target ([None] when the call ended before any target was at hand), the
    log records and the calls. *)
Record Outcome (Data : Type) : Type := mkOutcome {
  result : Res unit;
  target : option (H5File Data);
  records : list LogRecord;
  made : list (Call Data)
}.
Arguments mkOutcome {Data} result target records made.
Arguments result {Data} _.
Arguments target {Data} _.
Arguments records {Data} _.
Arguments made {Data} _.

(** An argument given either as a path or as an open instance. *)
Inductive PathOr (A : Type) : Type :=
| Path (p : string)
| Opened (a : A).
Arguments Path {A} p.
Arguments Opened {A} a.

Section WriteSpecToH5.
Context {Data : Type}.

(** The two constructors that open files, [SpecFileH5(path)] and
    [h5py.File(path, mode)]: what each yields for a path is a parameter. *)
Variable SpecFileH5_init : string → Res (SpecFileH5 Data).
Variable h5py_File : string → string → Res (H5File Data).

Definition write_spec_to_h5 (spec_file : PathOr (SpecFileH5 Data))
    (h5_file : PathOr (H5File Data)) (h5path h5_file_mode : string)
    (overwrite_data : bool) (link_type : string)
    (create_dataset_args : option Kwargs) : Outcome Data :=
  let at_hand := match h5_file with Opened f => Some f | Path _ => None end in
  let '(sfh5, calls1) :=
    match spec_file with
    | Opened sf => (Ok sf, @nil (Call Data))
    | Path p => (SpecFileH5_init p, [CallSpecFileH5 (Data:=Data) p])
    end in
  match sfh5 with
  | Raise e => mkOutcome (Raise e) at_hand [] calls1
  | Ok sfh5 =>
      let '(h5f0, calls2) :=
        match h5_file with
        | Opened f => (Ok f, calls1)
        | Path p =>
            (h5py_File p h5_file_mode,
             (calls1 ++ [CallFile p h5_file_mode])%list)
        end in
      match h5f0 with
      | Raise e => mkOutcome (Raise e) None [] calls2
      | Ok h5f0 =>
          let h5path :=
            if PyStr.endswith h5path "/" then h5path else h5path ++ "/" in
          let create_dataset_args := default ∅ create_dataset_args in
          match visititems h5path overwrite_data link_type create_dataset_args
                  sfh5 (mkState h5f0 [] calls2) with
          | (Raise e, st) => mkOutcome (Raise e) (Some (h5f st)) (log st) (calls st)
          | (Ok _, st) =>
              mkOutcome (Ok tt) (Some (h5f st)) (log st)
                (match h5_file with
                 | Opened _ => calls st
                 | Path _ => calls st ++ [CallClose]
                 end)
          end
      end
  end.

Definition convert (spec_file : PathOr (SpecFileH5 Data))
    (h5_file : PathOr (H5File Data)) (h5_file_mode : string)
    (link_type : string) (create_dataset_args : option Kwargs)
  : Outcome Data :=
  if negb (bool_decide (h5_file_mode ∈ ["w"; "w-"])) then
    mkOutcome
      (Raise (IOError ("File mode must be 'w' or 'w-'. Use write_spec_to_h5"
                       ++ " to append Spec data to an existing HDF5 file.")))
      (match h5_file with Opened f => Some f | Path _ => None end) [] []
  else
    write_spec_to_h5 spec_file h5_file "/" h5_file_mode false link_type
      create_dataset_args.

End WriteSpecToH5.


(** ** Vocabulary of the statements *)

Definition is_create_dataset {Data} (c : Call Data) : bool :=
  match c with CallCreateDataset _ _ _ _ => true | _ => false end.

(** [name in f] *)
Definition present {Data} (f : H5File Data) (nm : string) : bool :=
  bool_decide (is_Some (links f !! nm)).


(** A creation of a dataset or of a group at a path that matches its alias
    pattern. *)
Definition creates_aliased {Data} (c : Call Data) : bool :=
  match c with
  | CallCreateDataset nm _ _ _ => Re.re_match Re.mca_data_pattern nm
  | CallCreateGroup nm => Re.re_match Re.mca_group_pattern nm
  | _ => false
  end.

(** A member whose target path is on neither alias pattern. *)
Definition off_alias {Data} (h5path : string)
    (member : string * SpecMember Data) : Prop :=
  Re.re_match Re.mca_data_pattern (h5_name_of h5path member.1) = false
  ∧ Re.re_match Re.mca_group_pattern (h5_name_of h5path member.1) = false.

(** A member that is one of the two link classes. *)
Definition is_link {Data} (obj : SpecMember Data) : bool :=
  match obj with
  | SpecFileH5LinkToGroup | SpecFileH5LinkToDataset => true
  | _ => false
  end.

(** The path a call creates a dataset or a group at. *)
Definition creation_name {Data} (c : Call Data) : option string :=
  match c with
  | CallCreateDataset nm _ _ _ | CallCreateGroup nm => Some nm
  | _ => None
  end.

(** An argument given as a path. *)
Definition is_path {A} (x : PathOr A) : bool :=
  match x with Path _ => true | Opened _ => false end.

(** [h5path] once the trailing separator is enforced (lines 75-76). *)
Definition mount (h5path : string) : string :=
  if PyStr.endswith h5path "/" then h5path else h5path ++ "/".

(** The state a visit starts from when only the file is of interest. *)
Definition fresh {Data} (f : H5File Data) : State Data := mkState f [] [].

(** ** The alias path as the specification words it *)

Module SpecWording.

(** [s.split(sep)] and [sep.join(l)] for a one-character separator *)
Fixpoint split (sep : ascii) (s : string) : list string :=
  match s with
  | EmptyString => [EmptyString]
  | String a s' =>
      if Ascii.eqb a sep then EmptyString :: split sep s'
      else match split sep s' with
           | h :: t => String a h :: t
           | [] => [String a EmptyString]
           end
  end.



End SpecWording.

(** ** Sample trees and targets *)

Module Sample.

(** One scan with one MCA, in the layout of [silx.io.specfileh5], groups
    before their members. *)
Definition mca_tree : SpecFileH5 Z :=
  [("/1.1", SpecFileH5Group);
   ("/1.1/title", SpecFileH5Dataset [] 11%Z);
   ("/1.1/instrument", SpecFileH5Group);
   ("/1.1/instrument/mca_0", SpecFileH5Group);
   ("/1.1/instrument/mca_0/data", SpecFileH5Dataset [1; 1024]%nat 7%Z);
   ("/1.1/measurement", SpecFileH5Group);
   ("/1.1/measurement/mca_0", SpecFileH5Group);
   ("/1.1/measurement/mca_0/data", SpecFileH5LinkToDataset);
   ("/1.1/measurement/mca_0/info", SpecFileH5LinkToGroup)].

(** A scan reduced to its title. *)
Definition title_tree : SpecFileH5 Z :=
  [("/1.1", SpecFileH5Group);
   ("/1.1/title", SpecFileH5Dataset [] 11%Z)].

Definition h5_empty : H5File Z := mkH5File ∅ [].

(** A file where [/1.1/title] is a group. *)
Definition h5_title_group : H5File Z :=
  mkH5File (<["/1.1" := HardLink 0]> (<["/1.1/title" := HardLink 1]> ∅))
           [H5Group; H5Group].

(** A file that holds the measurement side of scan 1.1 only, [info]
    being a group of its own. *)
Definition h5_measurement_only : H5File Z :=
  mkH5File (<["/1.1" := HardLink 0]>
           (<["/1.1/measurement" := HardLink 1]>
           (<["/1.1/measurement/mca_0" := HardLink 2]>
           (<["/1.1/measurement/mca_0/info" := HardLink 3]> ∅))))
           [H5Group; H5Group; H5Group; H5Group].

(** A file that holds the MCA dataset of scan 1.1 and a title. *)
Definition h5_mca_data : H5File Z :=
  mkH5File (<["/1.1/instrument/mca_0/data" := HardLink 0]>
           (<["/1.1/title" := HardLink 1]> ∅))
           [H5Dataset [1; 1024]%nat 5%Z ∅; H5Dataset [] 10%Z ∅].

(** A file that holds a dataset of its own where the alias of the MCA
    dataset of scan 1.1 would go. *)
Definition h5_measurement_data : H5File Z :=
  mkH5File (<["/1.1/measurement/mca_0/data" := HardLink 0]> ∅)
           [H5Dataset [1; 1024]%nat 3%Z ∅].

(** Constructors in a directory that holds no file: nothing to read, and
    for [h5py.File] a new empty file under every mode that may create. *)
Definition SpecFileH5_nofile (p : string) : Res (SpecFileH5 Z) :=
  Raise (IOError ("No such file: " ++ p)).

Definition File_nofile (p mode : string) : Res (H5File Z) :=
  if bool_decide (mode ∈ ["w"; "w-"; "a"]) then Ok h5_empty
  else Raise (IOError ("Unable to open file: " ++ p)).

(** [write_spec_to_h5(mca_tree, h5_empty)] with the defaults, then the
    file it leaves. *)
Definition first_run : Outcome Z :=
  write_spec_to_h5 SpecFileH5_nofile File_nofile
    (Opened mca_tree) (Opened h5_empty) "/" "a" false "hard" None.

Definition h5_after_first_run : H5File Z := default h5_empty (target first_run).

(** The same call once more, on the file the first one left. *)
Definition second_run : Outcome Z :=
  write_spec_to_h5 SpecFileH5_nofile File_nofile
    (Opened mca_tree) (Opened h5_after_first_run) "/" "a" false "hard" None.

(** [write_spec_to_h5(mca_tree, h5_empty, link_type="neither")] *)
Definition unknown_link_run : Outcome Z :=
  write_spec_to_h5 SpecFileH5_nofile File_nofile
    (Opened mca_tree) (Opened h5_empty) "/" "a" false "neither" None.


(** [write_spec_to_h5(title_tree, h5_title_group, overwrite_data=True)] *)
Definition overwrite_title_run : Outcome Z :=
  write_spec_to_h5 SpecFileH5_nofile File_nofile
    (Opened title_tree) (Opened h5_title_group) "/" "a" true "hard" None.

(** The callback on one dataset, closure variables at their defaults. *)
Definition visit_dataset (spec_h5_name : string) (shape : list nat) (data : Z)
    (f : H5File Z) : Res unit * State Z :=
  append_spec_member_to_h5 "/" false "hard" ∅ spec_h5_name
    (SpecFileH5Dataset shape data) (mkState f [] []).

End Sample.

(** ** Proof automation *)

(** Unfolds the statements of a closure down to the state they leave. *)
Ltac run :=
  cbv beta iota zeta delta
      [append_spec_member_to_h5 create_link bind_link bind ret raise local
       logger_debug logger_warn h5_contains h5_delitem h5_setitem h5_new
       h5_create_dataset h5_create_group h5f log calls links objects present
       name oid_of andb orb negb fst snd].


(** A call of another kind, or on another path, than those of a trace. *)
Ltac not_in_calls :=
  cbn [app];
  repeat (apply not_elem_of_cons; split; [first [discriminate | congruence]|]);
  apply not_elem_of_nil.

(** Splits on the tests the closures make, outermost first. *)
Ltac split_tests :=
  repeat (match goal with
          | |- context [if ?b then _ else _] => destruct b eqn:?
          end; run).

(** * Properties *)

Local Open Scope list_scope.

(** ** Strings *)

Section StrFacts.
Local Open Scope nat_scope.

Lemma string_app_cons (a : ascii) (s t : string) :
  String a s +:+ t = String a (s +:+ t).
Proof. reflexivity. Qed.

Lemma string_app_nil_r (s : string) : s +:+ "" = s.
Proof.
  induction s as [|a s IH]; [done|]. by rewrite string_app_cons, IH.
Qed.

Lemma string_app_assoc (s1 s2 s3 : string) :
  (s1 +:+ s2) +:+ s3 = s1 +:+ s2 +:+ s3.
Proof.
  induction s1 as [|a s1 IH]; [done|]. by rewrite !string_app_cons, IH.
Qed.

Lemma string_length_app (s1 s2 : string) :
  String.length (s1 +:+ s2) = String.length s1 + String.length s2.
Proof.
  induction s1 as [|a s1 IH]; [done|]. rewrite string_app_cons. simpl.
  by rewrite IH.
Qed.

Lemma prefix_length (p s : string) :
  String.prefix p s = true → String.length p ≤ String.length s.
Proof.
  revert s. induction p as [|a p IH]; intros [|b s]; simpl; try lia; try done.
  destruct (ascii_dec a b); [|done]. intros H%IH. lia.
Qed.

Lemma prefix_app (p s : string) : String.prefix p (p +:+ s) = true.
Proof.
  induction p as [|a p IH]; [by destruct s|].
  rewrite string_app_cons. simpl. by destruct (ascii_dec a a).
Qed.

Lemma contains_app_r (old pre s : string) :
  PyStr.contains old s = true → PyStr.contains old (pre +:+ s) = true.
Proof.
  intros H. induction pre as [|a pre IH]; [done|].
  rewrite string_app_cons. simpl. rewrite IH. apply orb_true_r.
Qed.

Lemma contains_here (old pre post : string) :
  PyStr.contains old (pre +:+ old +:+ post) = true.
Proof.
  apply contains_app_r.
  assert (String.prefix old (old +:+ post) = true) as Hp by apply prefix_app.
  destruct (old +:+ post); cbn [PyStr.contains]; by rewrite Hp.
Qed.

(** A replacement by a string at least as long never shortens. *)
Lemma replace_from_length (old new : string) :
  old ≠ "" → String.length old ≤ String.length new →
  ∀ s k, String.length s - k ≤ String.length (PyStr.replace_from k old new s).
Proof.
  intros Hne Hlen. induction s as [|a s IH]; intros k; [simpl; lia|].
  destruct k as [|k]; [|apply IH].
  cbn [PyStr.replace_from String.length].
  destruct (String.prefix old (String a s)) eqn:Hp.
  - apply prefix_length in Hp. cbn [String.length] in Hp.
    specialize (IH (Nat.pred (String.length old))).
    destruct old; [done|]. rewrite string_length_app.
    cbn [String.length Nat.pred] in *. lia.
  - cbn [String.length]. specialize (IH 0). lia.
Qed.

Lemma replace_length (s old new : string) :
  old ≠ "" → String.length old ≤ String.length new →
  String.length s ≤ String.length (PyStr.replace s old new).
Proof.
  intros Hne Hlen. unfold PyStr.replace.
  pose proof (replace_from_length old new Hne Hlen s 0). lia.
Qed.

(** Replacing by a longer string lengthens as soon as there is an
    occurrence. *)
Lemma replace_grows (s old new : string) :
  old ≠ "" → String.length old < String.length new →
  PyStr.contains old s = true →
  String.length s < String.length (PyStr.replace s old new).
Proof.
  intros Hne Hlen. unfold PyStr.replace.
  induction s as [|a s IH]; cbn [PyStr.contains PyStr.replace_from].
  - destruct old; [done|]. simpl. done.
  - destruct (String.prefix old (String a s)) eqn:Hp.
    + intros _.
      pose proof (replace_from_length old new Hne ltac:(lia) s
                    (Nat.pred (String.length old))).
      apply prefix_length in Hp. cbn [String.length] in *.
      destruct old; [done|]. rewrite string_length_app.
      cbn [String.length Nat.pred] in *. lia.
    + rewrite orb_false_l. intros H%IH. cbn [String.length]. lia.
Qed.








Lemma all_chars_app (p : ascii → bool) (s1 s2 : string) :
  Re.all_chars p (s1 +:+ s2) = Re.all_chars p s1 && Re.all_chars p s2.
Proof.
  induction s1 as [|a s1 IH]; [done|].
  rewrite string_app_cons. cbn [Re.all_chars]. by rewrite IH, andb_assoc.
Qed.






End StrFacts.

(** ** Regular expressions: [accepts] decides [matches] *)

Section ReFacts.
Import Re.

Lemma string_app_eq_nil (s1 s2 : string) : s1 +:+ s2 = "" → s1 = "" ∧ s2 = "".
Proof. destruct s1; [done|]. by rewrite string_app_cons. Qed.

Lemma matches_seq_inv r1 r2 s :
  matches (Seq r1 r2) s →
  ∃ s1 s2, s = s1 +:+ s2 ∧ matches r1 s1 ∧ matches r2 s2.
Proof. inversion 1; subst; eauto. Qed.

Lemma matches_alt_inv r1 r2 s :
  matches (Alt r1 r2) s → matches r1 s ∨ matches r2 s.
Proof. inversion 1; subst; eauto. Qed.

Lemma matches_eps_inv s : matches Eps s → s = "".
Proof. by inversion 1. Qed.

Lemma matches_cls_inv p s :
  matches (Cls p) s → ∃ a, s = String a "" ∧ p a = true.
Proof. inversion 1; subst; eauto. Qed.

Lemma nullable_matches r : nullable r = true ↔ matches r "".
Proof.
  split.
  - induction r; simpl; intros H; try done.
    + constructor.
    + apply andb_true_iff in H as [H1 H2].
      change "" with ("" +:+ ""). constructor; auto.
    + apply orb_true_iff in H as [H|H]; [apply MAltL | apply MAltR]; auto.
    + constructor.
  - intros H. remember "" as s eqn:Hs.
    induction H; simpl; try done.
    + apply string_app_eq_nil in Hs as [-> ->].
      rewrite IHmatches1, IHmatches2; done.
    + rewrite IHmatches; done.
    + rewrite IHmatches; [apply orb_true_r | done].
Qed.

(** A non-empty word of [r*] starts with a non-empty word of [r]. *)
Lemma matches_star_cons r a s :
  matches (Star r) (String a s) →
  ∃ s1 s2, s = s1 +:+ s2 ∧ matches r (String a s1) ∧ matches (Star r) s2.
Proof.
  intros H. remember (Star r) as r' eqn:Hr. remember (String a s) as t eqn:Ht.
  revert a s Ht. induction H; intros b t Ht; try done.
  injection Hr as ->.
  destruct s1 as [|c s1].
  - change ("" +:+ s2) with s2 in Ht. by apply IHmatches2.
  - rewrite string_app_cons in Ht. injection Ht as -> <-. eauto.
Qed.

Lemma matches_deriv a r s : matches (deriv a r) s ↔ matches r (String a s).
Proof.
  revert s. induction r as [| |p|r1 IH1 r2 IH2|r1 IH1 r2 IH2|r IH]; intros s; simpl.
  - split; inversion 1.
  - split; inversion 1.
  - destruct (p a) eqn:Hp; split; intros H.
    + apply matches_eps_inv in H as ->. by constructor.
    + apply matches_cls_inv in H as (b & [= -> ->] & _). constructor.
    + inversion H.
    + apply matches_cls_inv in H as (b & [= -> ->] & Hb). congruence.
  - assert (matches (Seq (deriv a r1) r2) s → matches (Seq r1 r2) (String a s))
      as Hleft.
    { intros (s1 & s2 & -> & H1 & H2)%matches_seq_inv.
      apply IH1 in H1. rewrite <- string_app_cons. by constructor. }
    assert (∀ s1 s2, String a s = s1 +:+ s2 → s1 ≠ "" → matches r1 s1 →
              matches r2 s2 → matches (Seq (deriv a r1) r2) s) as Hcons.
    { intros [|b s1] s2 Heq Hne H1 H2; [done|].
      rewrite string_app_cons in Heq. injection Heq as -> ->.
      constructor; [by apply IH1 | done]. }
    destruct (nullable r1) eqn:Hn; split.
    + intros [H|H]%matches_alt_inv; [auto|].
      apply IH2 in H. change (String a s) with ("" +:+ String a s).
      constructor; [by apply nullable_matches | done].
    + intros (s1 & s2 & Heq & H1 & H2)%matches_seq_inv.
      destruct s1 as [|b s1].
      * change ("" +:+ s2) with s2 in Heq. subst s2. apply MAltR. by apply IH2.
      * apply MAltL. by eapply Hcons.
    + done.
    + intros (s1 & s2 & Heq & H1 & H2)%matches_seq_inv.
      eapply Hcons; [done| |done|done].
      intros ->. apply nullable_matches in H1. congruence.
  - split.
    + intros [H|H]%matches_alt_inv; [apply MAltL, IH1 | apply MAltR, IH2]; done.
    + intros [H|H]%matches_alt_inv; [apply MAltL, IH1 | apply MAltR, IH2]; done.
  - split.
    + intros (s1 & s2 & -> & H1 & H2)%matches_seq_inv.
      apply IH in H1. rewrite <- string_app_cons. by constructor.
    + intros (s1 & s2 & -> & H1 & H2)%matches_star_cons.
      constructor; [by apply IH | done].
Qed.

Lemma accepts_matches r s : accepts r s = true ↔ matches r s.
Proof.
  revert r. induction s as [|a s IH]; intros r; simpl.
  - apply nullable_matches.
  - rewrite IH. apply matches_deriv.
Qed.

Lemma matches_lit t s : matches (lit t) s ↔ s = t.
Proof.
  revert s. induction t as [|a t IH]; intros s; simpl.
  - split; [apply matches_eps_inv | intros ->; constructor].
  - split.
    + intros (s1 & s2 & -> & H1 & H2)%matches_seq_inv.
      apply matches_cls_inv in H1 as (b & -> & Hb).
      apply Ascii.eqb_eq in Hb as ->. apply IH in H2 as ->. done.
    + intros ->. change (String a t) with (String a "" +:+ t).
      constructor; [constructor; apply Ascii.eqb_refl | by apply IH].
Qed.

Lemma matches_star_all p s : all_chars p s = true → matches (Star (Cls p)) s.
Proof.
  induction s as [|a s IH]; simpl; [constructor|].
  intros [Ha Hs]%andb_true_iff.
  change (String a s) with (String a "" +:+ s).
  constructor; [by constructor | auto].
Qed.

Lemma matches_plus_digits s : digits s = true → matches (plus digit) s.
Proof.
  unfold digits. destruct s as [|a s]; [done|]. simpl.
  intros [Ha Hs]%andb_true_iff.
  change (String a s) with (String a "" +:+ s).
  constructor; [by constructor | by apply matches_star_all].
Qed.

(** Both patterns require the word [instrument] in the string. *)
Lemma mca_prefix_contains s :
  matches mca_prefix s → ∃ pre post, s = pre +:+ "instrument" +:+ post.
Proof.
  unfold mca_prefix.
  intros (s1 & ? & -> & _ & H)%matches_seq_inv.
  apply matches_seq_inv in H as (s2 & ? & -> & _ & H).
  apply matches_seq_inv in H as (s3 & ? & -> & _ & H).
  apply matches_seq_inv in H as (s4 & ? & -> & _ & H).
  apply matches_seq_inv in H as (s5 & ? & -> & _ & H).
  apply matches_seq_inv in H as (s6 & s7 & -> & H6 & _).
  apply matches_lit in H6 as ->.
  exists (s1 +:+ s2 +:+ s3 +:+ s4 +:+ s5 +:+ "/"), ("/mca_" +:+ s7).
  rewrite !string_app_assoc. done.
Qed.

Lemma mca_data_contains s :
  re_match mca_data_pattern s = true → PyStr.contains "instrument" s = true.
Proof.
  unfold re_match, mca_data_pattern. rewrite accepts_matches.
  intros (s1 & s2 & -> & (pre & post & ->)%mca_prefix_contains & _)%matches_seq_inv.
  rewrite !string_app_assoc. apply contains_here.
Qed.

(** Strings of the documented form match, with or without the separator
    after the MCA index. *)
Lemma mca_prefix_matches (pre scan1 scan2 index sep : string) :
  all_chars (λ a, negb (is_newline a)) pre = true →
  digits scan1 = true → digits scan2 = true → digits index = true →
  sep = "" ∨ sep = "/" →
  matches mca_prefix
    (pre +:+ "/" +:+ scan1 +:+ "." +:+ scan2 +:+ "/instrument/mca_"
     +:+ index +:+ sep).
Proof.
  intros Hpre H1 H2 H3 Hsep. unfold mca_prefix.
  apply MSeq; [by apply matches_star_all|].
  apply MSeq; [by apply MCls|].
  apply MSeq; [by apply matches_plus_digits|].
  apply MSeq; [by apply MCls|].
  apply MSeq; [by apply matches_plus_digits|].
  apply MSeq; [by apply matches_lit|].
  apply MSeq; [by apply matches_plus_digits|].
  destruct Hsep as [-> | ->]; [apply MAltR, MEps | by apply MAltL, MCls].
Qed.


(** The alias of a matching dataset path is another path, and so is the
    alias of any group path. *)
Lemma data_alias_fresh (h5_name : string) :
  re_match mca_data_pattern h5_name = true →
  PyStr.replace h5_name "instrument" "measurement" ≠ h5_name.
Proof.
  intros Hm%mca_data_contains Heq.
  apply (replace_grows h5_name "instrument" "measurement") in Hm;
    [|done|simpl; lia].
  rewrite Heq in Hm. lia.
Qed.

Lemma group_alias_fresh (h5_name : string) :
  PyStr.replace h5_name "instrument" "measurement" +:+ "/info" ≠ h5_name.
Proof.
  intros Heq.
  pose proof (replace_length h5_name "instrument" "measurement") as Hl.
  apply (f_equal String.length) in Heq. rewrite string_length_app in Heq.
  simpl in *. specialize (Hl ltac:(done)). lia.
Qed.

End ReFacts.

(** ** The converter *)

Section Converter.
Context {Data : Type}.
Implicit Types (st : State Data) (obj : SpecMember Data).


(** C6.  Every creation of a dataset goes through one [create_dataset]
    call, and [create_dataset_args] are its keyword arguments exactly when
    the shape is not [()]: a scalar is created with none. *)
Theorem create_dataset_args_only_for_arrays
    (h5path : string) (overwrite_data : bool) (link_type : string)
    (create_dataset_args : Kwargs) (spec_h5_name : string)
    (shape : list nat) (data : Data) st :
  let h5_name := h5_name_of h5path spec_h5_name in
  let st' := (append_spec_member_to_h5 h5path overwrite_data link_type
                create_dataset_args spec_h5_name
                (SpecFileH5Dataset shape data) st).2 in
  ∃ new, calls st' = calls st ++ new ∧
    List.filter is_create_dataset new =
      if overwrite_data || negb (present (h5f st) h5_name)
      then [CallCreateDataset h5_name shape data
              (if bool_decide (shape = []) then ∅ else create_dataset_args)]
      else [].
Proof.
  intros h5_name st'. subst st'. destruct st as [[lk ob] l c]. run.
  fold h5_name.
  destruct overwrite_data, (bool_decide (is_Some (lk !! h5_name))); run;
    split_tests;
    eexists;
    (split; [first [symmetry; apply app_nil_r
                   | rewrite <- ?app_assoc; reflexivity]
            | reflexivity]).
Qed.

(** Sequencing: the second statement runs on the state the first left,
    unless the first raised. *)
Lemma bind_ok {A B} (m : M Data A) (k : A → M Data B) st a st1 :
  m st = (Ok a, st1) → bind m k st = k a st1.
Proof. unfold bind. by intros ->. Qed.

Lemma bind_raise {A B} (m : M Data A) (k : A → M Data B) st e st1 :
  m st = (Raise e, st1) → bind m k st = (Raise e, st1).
Proof. unfold bind. by intros ->. Qed.

(** The calls of one visited member come after those already made. *)
Lemma append_calls_extend
    (h5path : string) (overwrite_data : bool) (link_type : string)
    (create_dataset_args : Kwargs) (spec_h5_name : string) obj st :
  ∃ new, calls (append_spec_member_to_h5 h5path overwrite_data link_type
                  create_dataset_args spec_h5_name obj st).2
         = calls st ++ new.
Proof.
  destruct st as [[lk ob] lg c], obj; run; split_tests; run;
    eexists;
    first [symmetry; apply app_nil_r | rewrite <- ?app_assoc; reflexivity].
Qed.

(** [ValueError] comes out of one member only if the link type is unknown
    and that member has just been created at a path matching its alias
    pattern. *)
Lemma append_value_error
    (h5path : string) (overwrite_data : bool) (link_type : string)
    (create_dataset_args : Kwargs) (spec_h5_name : string) obj st msg st' :
  append_spec_member_to_h5 h5path overwrite_data link_type
    create_dataset_args spec_h5_name obj st = (Raise (ValueError msg), st') →
  (link_type ≠ "hard" ∧ link_type ≠ "soft")
  ∧ ∃ new, calls st' = calls st ++ new ∧ existsb creates_aliased new = true.
Proof.
  destruct st as [[lk ob] lg c], obj; run; split_tests; run;
    intros [= <- <-]; run;
    (split; [split; by apply String.eqb_neq|]);
    eexists;
    (split; [rewrite <- ?app_assoc; reflexivity|]);
    cbn [existsb creates_aliased app];
    repeat match goal with
      | H : Re.re_match _ _ = true |- _ => rewrite H; clear H
      end;
    by rewrite ?orb_true_r.
Qed.

Lemma visititems_value_error
    (h5path : string) (overwrite_data : bool) (link_type : string)
    (create_dataset_args : Kwargs) (sfh5 : SpecFileH5 Data) st msg st' :
  visititems h5path overwrite_data link_type create_dataset_args sfh5 st
    = (Raise (ValueError msg), st') →
  (link_type ≠ "hard" ∧ link_type ≠ "soft")
  ∧ ∃ new, calls st' = calls st ++ new ∧ existsb creates_aliased new = true.
Proof.
  revert st. induction sfh5 as [|[nm obj] rest IH]; intros st; simpl.
  - intros [=].
  - unfold bind at 1.
    destruct (append_spec_member_to_h5 _ _ _ _ nm obj st) as [[[]|e] st1] eqn:E.
    + intros (Hlt & new & Heq & Hc)%IH. split; [done|].
      destruct (append_calls_extend h5path overwrite_data link_type
                  create_dataset_args nm obj st) as [new1 Hnew1].
      rewrite E in Hnew1. simpl in Hnew1.
      exists (new1 ++ new). rewrite Heq, Hnew1, app_assoc.
      split; [done|]. rewrite existsb_app, Hc. apply orb_true_r.
    + intros [= -> <-]. by eapply append_value_error.
Qed.

(** The form every path through [write_spec_to_h5] gives to the lemma. *)
Lemma value_error_in_made
    (h5path : string) (overwrite_data : bool) (link_type : string)
    (create_dataset_args : Kwargs) (sfh5 : SpecFileH5 Data) st msg st'
    (after : list (Call Data)) :
  visititems h5path overwrite_data link_type create_dataset_args sfh5 st
    = (Raise (ValueError msg), st') →
  (link_type ≠ "hard" ∧ link_type ≠ "soft")
  ∧ ∃ c, c ∈ calls st' ++ after ∧ creates_aliased c = true.
Proof.
  intros (Hlt & new & Heq & (c & Hin & Hc)%existsb_exists)%visititems_value_error.
  split; [done|]. exists c. split; [|done].
  apply list_elem_of_In in Hin. rewrite Heq, !elem_of_app. auto.
Qed.

(** C1 (as amended).  The configuration error for an unknown link type is
    raised from inside [create_link] only: when [write_spec_to_h5] ends with
    that [ValueError], a dataset or a group whose path matches its alias
    pattern has already been created in the target. *)
Theorem config_error_follows_creation
    (SpecFileH5_init : string → Res (SpecFileH5 Data))
    (h5py_File : string → string → Res (H5File Data))
    (spec_file : PathOr (SpecFileH5 Data)) (h5_file : PathOr (H5File Data))
    (h5path h5_file_mode : string) (overwrite_data : bool)
    (link_type : string) (create_dataset_args : option Kwargs) (msg : string) :
  let o := write_spec_to_h5 SpecFileH5_init h5py_File spec_file h5_file h5path
             h5_file_mode overwrite_data link_type create_dataset_args in
  (∀ p, SpecFileH5_init p ≠ Raise (ValueError msg)) →
  (∀ p mode, h5py_File p mode ≠ Raise (ValueError msg)) →
  result o = Raise (ValueError msg) →
  (link_type ≠ "hard" ∧ link_type ≠ "soft")
  ∧ ∃ c, c ∈ made o ∧ creates_aliased c = true.
Proof.
  intros o HS HF. subst o. unfold write_spec_to_h5.
  destruct spec_file as [ps|sf];
    [specialize (HS ps); destruct (SpecFileH5_init ps) as [sf|e];
       [|intros [= ->]; done]|];
    (destruct h5_file as [ph|f];
      [specialize (HF ph h5_file_mode);
       destruct (h5py_File ph h5_file_mode) as [f|e]; [|intros [= ->]; done]|]);
    cbn beta iota;
    (destruct (visititems _ _ _ _ sf _) as [[[]|e] st'] eqn:E;
       cbn [result made]; [done|]);
    intros [= ->];
    apply (value_error_in_made _ _ _ _ _ _ _ _ []) in E;
    by rewrite app_nil_r in E.
Qed.

(** [create_link] under [overwrite_data], on a standing entry, with a link
    type it does not know: the entry is deleted, then the error is raised. *)
Lemma create_link_deletes_then_raises
    (link_type link_name : string) (t : H5Handle) st :
  link_type ≠ "hard" → link_type ≠ "soft" →
  present (h5f st) link_name = true →
  let out := create_link true link_type link_name t st in
  out.1 = Raise (ValueError "link_type  must be 'hard' or 'soft'")
  ∧ links (h5f out.2) = delete link_name (links (h5f st))
  ∧ objects (h5f out.2) = objects (h5f st)
  ∧ calls out.2 = calls st ++ [CallDelItem link_name].
Proof.
  intros Hh%String.eqb_neq Hs%String.eqb_neq. destruct st as [[lk ob] lg c].
  run. intros ->. run. rewrite Hh, Hs. done.
Qed.

(** The alias statement of a dataset member.  Off the pattern no link is
    assigned, and a skipped dataset leaves the target as it was and is
    reported by a warning; on the pattern a dataset that was created is
    handed to [create_link] together with its alias path. *)
Lemma alias_check_follows_every_dataset
    (h5path : string) (overwrite_data : bool) (link_type : string)
    (create_dataset_args : Kwargs) (spec_h5_name : string)
    (shape : list nat) (data : Data) st :
  let h5_name := h5_name_of h5path spec_h5_name in
  let link_name := PyStr.replace h5_name "instrument" "measurement" in
  let ds := mkH5Handle (H5Path.abspath h5_name) (length (objects (h5f st)))
  in
  let out := append_spec_member_to_h5 h5path overwrite_data link_type
               create_dataset_args spec_h5_name
               (SpecFileH5Dataset shape data) st in
  (Re.re_match Re.mca_data_pattern h5_name = false →
     (∃ new, calls out.2 = calls st ++ new ∧ ∀ nm l, CallSetItem nm l ∉ new)
     ∧ (overwrite_data = false → present (h5f st) h5_name = true →
          out.1 = Ok tt ∧ h5f out.2 = h5f st ∧ calls out.2 = calls st
          ∧ log out.2
            = log st ++ [(DEBUG, "Saving dataset: " +:+ h5_name);
                         (WARNING, "Ignoring existing dataset: " +:+ h5_name)]))
  ∧ (Re.re_match Re.mca_data_pattern h5_name = true →
     overwrite_data = true ∨ present (h5f st) h5_name = false →
     ∃ st1,
       links (h5f st1) !! h5_name = Some (HardLink (oid_of ds))
       ∧ objects (h5f st1) !! oid_of ds
         = Some (H5Dataset shape data
                   (if bool_decide (shape = []) then ∅ else create_dataset_args))
       ∧ out = create_link overwrite_data link_type link_name ds st1).
Proof.
  intros h5_name link_name ds out. subst out ds.
  destruct st as [[lk ob] lg c]. split; intros Hm.
  - split.
    + run. fold h5_name. rewrite Hm. split_tests; run; eexists;
        (split; [first [symmetry; apply app_nil_r
                       | rewrite <- ?app_assoc; reflexivity]|]);
        intros nm l; not_in_calls.
    + run. fold h5_name. rewrite Hm. intros -> ->. run.
      by rewrite <- app_assoc.
  - set (kw := if bool_decide (shape = []) then ∅ else create_dataset_args).
    set (saving := (DEBUG, "Saving dataset: " +:+ h5_name)).
    set (made_ds := CallCreateDataset h5_name shape data kw).
    intros Hc.
    destruct (bool_decide (is_Some (lk !! h5_name))) eqn:Hp; revert Hc Hp; run;
      intros Hc Hp.
    + destruct Hc as [->|]; [|congruence].
      exists (mkState
                (mkH5File (<[h5_name := HardLink (length ob)]> (delete h5_name lk))
                          (ob ++ [H5Dataset shape data kw]))
                ((lg ++ [saving])
                    ++ [(WARNING, "Overwriting dataset: " +:+ h5_name)])
                ((c ++ [CallDelItem h5_name]) ++ [made_ds])).
      run. fold h5_name link_name. rewrite Hm, Hp.
      split_and!; [by rewrite lookup_insert_eq | by apply list_lookup_middle|].
      subst kw made_ds. destruct (bool_decide (shape = [])); run;
        split_tests; reflexivity.
    + exists (mkState
                (mkH5File (<[h5_name := HardLink (length ob)]> lk)
                          (ob ++ [H5Dataset shape data kw]))
                (lg ++ [saving]) (c ++ [made_ds])).
      run. fold h5_name link_name. rewrite Hm, Hp.
      split_and!; [by rewrite lookup_insert_eq | by apply list_lookup_middle|].
      subst kw made_ds.
      destruct overwrite_data, (bool_decide (shape = [])); run;
        split_tests; reflexivity.
Qed.

(** C7 (as amended).  A group member whose target path is taken changes
    nothing in the target, whatever [overwrite_data]; one whose path is free
    starts with [create_group] on that path, never deletes it, and leaves
    the new group bound to it. *)
Theorem group_created_only_when_absent
    (h5path : string) (overwrite_data : bool) (link_type : string)
    (create_dataset_args : Kwargs) (spec_h5_name : string) st :
  let h5_name := h5_name_of h5path spec_h5_name in
  let out := append_spec_member_to_h5 h5path overwrite_data link_type
               create_dataset_args spec_h5_name SpecFileH5Group st in
  (present (h5f st) h5_name = true →
     h5f out.2 = h5f st ∧ calls out.2 = calls st)
  ∧ (present (h5f st) h5_name = false →
     (∃ new, calls out.2 = calls st ++ CallCreateGroup h5_name :: new
             ∧ (CallDelItem h5_name ∉ new) ∧ (CallCreateGroup h5_name ∉ new))
     ∧ links (h5f out.2) !! h5_name
       = Some (HardLink (length (objects (h5f st))))
     ∧ objects (h5f out.2) !! (length (objects (h5f st))) = Some H5Group).
Proof.
  intros h5_name out. subst out. destruct st as [[lk ob] lg c].
  pose proof (group_alias_fresh h5_name) as Hne.
  split; run; fold h5_name; intros ->; run.
  - by destruct (Re.re_match Re.mca_group_pattern h5_name).
  - split_tests; run;
      (split_and!;
       [ eexists; split;
         [ rewrite <- ?app_assoc; reflexivity
         | split; not_in_calls ]
       | by rewrite ?lookup_insert_ne, ?lookup_delete_ne, ?lookup_insert_eq
              by done
       | by apply list_lookup_middle ]).
Qed.



(** C10.  With [overwrite_data] set, [create_link] deletes the entry standing
    at the link path before it looks at the link type; so a call with an
    unknown link type can end in [ValueError] with an entry of the target
    gone, as it does on the sample file that holds the measurement side
    only. *)
Theorem link_deleted_before_kind_is_checked :
  (∀ (link_type link_name : string) (t : H5Handle) (st : State Data),
     link_type ≠ "hard" → link_type ≠ "soft" →
     present (h5f st) link_name = true →
     let out := create_link true link_type link_name t st in
     (∃ msg, out.1 = Raise (ValueError msg))
     ∧ present (h5f out.2) link_name = false
     ∧ calls out.2 = calls st ++ [CallDelItem link_name])
  ∧ (let o := write_spec_to_h5 Sample.SpecFileH5_nofile Sample.File_nofile
                (Opened Sample.mca_tree) (Opened Sample.h5_measurement_only)
                "/" "a" true "neither" None in
     present Sample.h5_measurement_only "/1.1/measurement/mca_0/info" = true
     ∧ (∃ msg, result o = Raise (ValueError msg))
     ∧ ∃ f, target o = Some f
            ∧ present f "/1.1/measurement/mca_0/info" = false).
Proof.
  split.
  - intros link_type link_name t st Hh Hs Hp.
    destruct (create_link_deletes_then_raises link_type link_name t st Hh Hs Hp)
      as (Hr & Hl & _ & Hc).
    split_and!; [eauto| |done].
    unfold present. rewrite Hl, lookup_delete_eq. apply bool_decide_eq_false_2.
    by intros [? ?].
  - vm_compute. split_and!; [done|eauto|eexists; split; done].
Qed.

(** Off the alias patterns and without [overwrite_data] a member never
    fails, never removes a name, ends bound unless it is a link, and changes
    nothing when it is a link or its path is taken. *)
Lemma append_off_alias
    (h5path link_type : string) (create_dataset_args : Kwargs)
    (spec_h5_name : string) obj st :
  off_alias h5path (spec_h5_name, obj) →
  let h5_name := h5_name_of h5path spec_h5_name in
  let out := append_spec_member_to_h5 h5path false link_type
               create_dataset_args spec_h5_name obj st in
  out.1 = Ok tt
  ∧ (∀ k, present (h5f st) k = true → present (h5f out.2) k = true)
  ∧ (is_link obj = false → present (h5f out.2) h5_name = true)
  ∧ (is_link obj = true ∨ present (h5f st) h5_name = true →
     h5f out.2 = h5f st ∧ calls out.2 = calls st).
Proof.
  intros [Hd Hg] h5_name out. subst out. cbn [fst] in Hd, Hg.
  fold h5_name in Hd, Hg.
  assert (∀ (lk : gmap string H5Link) l k,
            bool_decide (is_Some (lk !! k)) = true →
            bool_decide (is_Some (<[h5_name := l]> lk !! k)) = true) as Hmono.
  { intros lk l k Hk%bool_decide_eq_true. apply bool_decide_eq_true.
    rewrite lookup_insert_is_Some. destruct (decide (h5_name = k)); auto. }
  assert (∀ (lk : gmap string H5Link) l,
            bool_decide (is_Some (<[h5_name := l]> lk !! h5_name)) = true)
    as Hhere.
  { intros lk l. apply bool_decide_eq_true. rewrite lookup_insert_eq. eauto. }
  destruct st as [[lk ob] lg c], obj; run; fold h5_name; rewrite ?Hd, ?Hg;
    try (split_and!; [done|done|done|done]);
    destruct (bool_decide (is_Some (lk !! h5_name))) eqn:Hp; run;
    try destruct (bool_decide (shape = [])); run;
    (split_and!; [done | auto | auto | intros [?|?]; done]).
Qed.

(** Visiting a tree off the alias patterns, without [overwrite_data]:
    the visit succeeds, keeps every name and ends with every member that is
    not a link bound. *)
Lemma visititems_off_alias
    (h5path link_type : string) (create_dataset_args : Kwargs)
    (sfh5 : SpecFileH5 Data) st :
  Forall (off_alias h5path) sfh5 →
  let out := visititems h5path false link_type create_dataset_args sfh5 st in
  out.1 = Ok tt
  ∧ (∀ k, present (h5f st) k = true → present (h5f out.2) k = true)
  ∧ Forall (λ member, is_link member.2 = false →
                      present (h5f out.2) (h5_name_of h5path member.1) = true)
           sfh5.
Proof.
  intros Hoff. revert st. induction Hoff as [|[nm obj] rest Hm Hrest IH];
    intros st; cbn [visititems].
  - by split_and!.
  - destruct (append_off_alias h5path link_type create_dataset_args nm obj st Hm)
      as (Hok & Hmono & Hbound & _).
    destruct (append_spec_member_to_h5 _ _ _ _ nm obj st) as [r st1] eqn:E.
    cbn [fst snd] in *. subst r. rewrite (bind_ok _ _ _ _ _ E).
    destruct (IH st1) as (Hok' & Hmono' & Hall).
    split_and!; [done | intros k Hk; apply Hmono', Hmono, Hk |].
    constructor; [|done]. cbn [fst snd]. intros Hnl. apply Hmono', Hbound, Hnl.
Qed.

(** Once every member that is not a link is bound, such a visit changes
    nothing. *)
Lemma visititems_all_bound
    (h5path link_type : string) (create_dataset_args : Kwargs)
    (sfh5 : SpecFileH5 Data) st :
  Forall (off_alias h5path) sfh5 →
  Forall (λ member, is_link member.2 = false →
                    present (h5f st) (h5_name_of h5path member.1) = true)
         sfh5 →
  let out := visititems h5path false link_type create_dataset_args sfh5 st in
  out.1 = Ok tt ∧ h5f out.2 = h5f st ∧ calls out.2 = calls st.
Proof.
  intros Hoff. revert st. induction Hoff as [|[nm obj] rest Hm Hrest IH];
    intros st Hall; cbn [visititems].
  - done.
  - apply Forall_cons in Hall as [Hhere Hall]. cbn [fst snd] in Hhere.
    destruct (append_off_alias h5path link_type create_dataset_args nm obj st Hm)
      as (Hok & _ & _ & Hsame).
    destruct Hsame as [Hf Hc].
    { destruct (is_link obj); auto. }
    destruct (append_spec_member_to_h5 _ _ _ _ nm obj st) as [r st1] eqn:E.
    cbn [fst snd] in *. subst r. rewrite (bind_ok _ _ _ _ _ E).
    destruct (IH st1) as (Hok' & Hf' & Hc'); [by rewrite Hf|].
    split_and!; [done | congruence | congruence].
Qed.

(** Where no target path is on an alias pattern, a second visit without
    [overwrite_data] completes and leaves the target of the first as it
    is. *)
Lemma rerun_off_alias_changes_nothing
    (h5path link_type : string) (create_dataset_args : Kwargs)
    (sfh5 : SpecFileH5 Data) st :
  Forall (off_alias h5path) sfh5 →
  let first := visititems h5path false link_type create_dataset_args sfh5 st in
  let second :=
    visititems h5path false link_type create_dataset_args sfh5 first.2 in
  first.1 = Ok tt ∧ second.1 = Ok tt
  ∧ h5f second.2 = h5f first.2 ∧ calls second.2 = calls first.2.
Proof.
  intros Hoff first second.
  destruct (visititems_off_alias h5path link_type create_dataset_args sfh5 st
              Hoff) as (Hok & _ & Hall).
  destruct (visititems_all_bound h5path link_type create_dataset_args sfh5
              first.2 Hoff Hall) as (Hok' & Hf & Hc).
  done.
Qed.

(** [overwrite_data] on a dataset whose target path is taken: the entry is
    deleted, then the dataset is created. *)
Lemma dataset_overwrite_deletes_then_creates
    (h5path link_type : string) (create_dataset_args : Kwargs)
    (spec_h5_name : string) (shape : list nat) (data : Data) st :
  let h5_name := h5_name_of h5path spec_h5_name in
  let out := append_spec_member_to_h5 h5path true link_type
               create_dataset_args spec_h5_name
               (SpecFileH5Dataset shape data) st in
  present (h5f st) h5_name = true →
  ∃ new,
    calls out.2
    = calls st
      ++ CallDelItem h5_name
         :: CallCreateDataset h5_name shape data
              (if bool_decide (shape = []) then ∅ else create_dataset_args)
         :: new.
Proof.
  intros h5_name out. subst out. destruct st as [[lk ob] lg c].
  run. fold h5_name. intros ->. run.
  destruct (bool_decide (shape = [])); run; split_tests;
    eexists; rewrite <- ?app_assoc; reflexivity.
Qed.

(** C8.  [convert] with a file mode other than ["w"] and ["w-"] raises its
    [IOError] at once: no constructor is called, so no file is opened,
    nothing is logged, and a target given open is left as it was. *)
Theorem convert_rejects_other_modes
    (SpecFileH5_init : string → Res (SpecFileH5 Data))
    (h5py_File : string → string → Res (H5File Data))
    (spec_file : PathOr (SpecFileH5 Data)) (h5_file : PathOr (H5File Data))
    (h5_file_mode link_type : string) (create_dataset_args : option Kwargs) :
  h5_file_mode ≠ "w" → h5_file_mode ≠ "w-" →
  let o := convert SpecFileH5_init h5py_File spec_file h5_file h5_file_mode
             link_type create_dataset_args in
  (∃ msg, result o = Raise (IOError msg))
  ∧ made o = [] ∧ records o = []
  ∧ target o = match h5_file with Opened f => Some f | Path _ => None end.
Proof.
  intros Hw Hx. unfold convert.
  rewrite bool_decide_eq_false_2.
  - simpl. eauto.
  - rewrite !elem_of_cons, elem_of_nil. tauto.
Qed.

(** Under the two accepted modes [convert] is [write_spec_to_h5] at the
    root with [overwrite_data] left to its default. *)
Lemma convert_delegates
    (SpecFileH5_init : string → Res (SpecFileH5 Data))
    (h5py_File : string → string → Res (H5File Data))
    (spec_file : PathOr (SpecFileH5 Data)) (h5_file : PathOr (H5File Data))
    (h5_file_mode link_type : string) (create_dataset_args : option Kwargs) :
  h5_file_mode = "w" ∨ h5_file_mode = "w-" →
  convert SpecFileH5_init h5py_File spec_file h5_file h5_file_mode
    link_type create_dataset_args
  = write_spec_to_h5 SpecFileH5_init h5py_File spec_file h5_file "/"
      h5_file_mode false link_type create_dataset_args.
Proof.
  intros Hm. unfold convert. rewrite bool_decide_eq_true_2; [done|].
  rewrite !elem_of_cons. tauto.
Qed.

End Converter.

(** ** The properties on the sample trees *)

Section OnSamples.
Import Sample.

(** C1, counterexample.  With the link type ["neither"] the error comes after
    three groups and a dataset have been created in the target. *)
Lemma config_error_after_writes :
  result unknown_link_run
    = Raise (ValueError "link_type  must be 'hard' or 'soft'")
  ∧ made unknown_link_run
    = [CallCreateGroup "/1.1"; CallCreateDataset "/1.1/title" [] 11%Z ∅;
       CallCreateGroup "/1.1/instrument";
       CallCreateGroup "/1.1/instrument/mca_0"]
  ∧ target unknown_link_run ≠ Some h5_empty.
Proof.
  split_and!; [by vm_compute..|].
  intros H. apply (f_equal (λ t, length (objects (default h5_empty t)))) in H.
  vm_compute in H. discriminate.
Qed.

(** The theorem on the sample call with the link type ["neither"]. *)
Lemma config_error_follows_creation_witness :
  (∀ p, SpecFileH5_nofile p
        ≠ Raise (ValueError "link_type  must be 'hard' or 'soft'"))
  ∧ (∀ p mode, File_nofile p mode
               ≠ Raise (ValueError "link_type  must be 'hard' or 'soft'"))
  ∧ result unknown_link_run
    = Raise (ValueError "link_type  must be 'hard' or 'soft'")
  ∧ ("neither" ≠ "hard" ∧ "neither" ≠ "soft")
  ∧ ∃ c, c ∈ made unknown_link_run ∧ creates_aliased c = true.
Proof.
  assert (∀ p, SpecFileH5_nofile p
               ≠ Raise (ValueError "link_type  must be 'hard' or 'soft'"))
    as HS by (intros p; discriminate).
  assert (∀ p mode, File_nofile p mode
               ≠ Raise (ValueError "link_type  must be 'hard' or 'soft'"))
    as HF.
  { intros p mode. unfold File_nofile.
    destruct (bool_decide (mode ∈ ["w"; "w-"; "a"])); discriminate. }
  assert (result unknown_link_run
          = Raise (ValueError "link_type  must be 'hard' or 'soft'"))
    as HR by (vm_compute; reflexivity).
  split_and!; [exact HS | exact HF | exact HR | ..];
    apply (config_error_follows_creation SpecFileH5_nofile File_nofile
             (Opened mca_tree) (Opened h5_empty) "/" "a" false "neither" None
             "link_type  must be 'hard' or 'soft'" HS HF HR).
Defined.

(** C2, the run that fails.  The first conversion of the sample tree into an
    empty file succeeds; the same call on the file it left stops with
    [UnboundLocalError] at the MCA group, which exists by then, the file
    untouched. *)
Theorem rerun_raises_unbound_local :
  result first_run = Ok tt
  ∧ target first_run = Some h5_after_first_run
  ∧ result second_run = Raise (UnboundLocalError "grp")
  ∧ target second_run = Some h5_after_first_run
  ∧ made second_run = []
  ∧ records second_run
    = [(DEBUG, "Saving dataset: /1.1/title");
       (WARNING, "Ignoring existing dataset: /1.1/title")].
Proof. by vm_compute. Qed.

(** C3, the visit that fails.  Two datasets skipped alike (their paths are
    taken, [overwrite_data] is off) end differently according to the alias
    pattern: the one off the pattern is skipped with its warning; for the
    one on it the alias statement is entered all the same and stops at the
    read of [ds], which only a creation assigns, with [UnboundLocalError]
    and without the warning of the skip. *)
Theorem skipped_dataset_alias_is_inspected :
  present h5_mca_data "/1.1/title" = true
  ∧ present h5_mca_data "/1.1/instrument/mca_0/data" = true
  ∧ visit_dataset "/1.1/title" [] 11%Z h5_mca_data
    = (Ok tt,
       mkState h5_mca_data
         [(DEBUG, "Saving dataset: /1.1/title");
          (WARNING, "Ignoring existing dataset: /1.1/title")] [])
  ∧ visit_dataset "/1.1/instrument/mca_0/data" [1; 1024]%nat 7%Z h5_mca_data
    = (Raise (UnboundLocalError "ds"),
       mkState h5_mca_data
         [(DEBUG, "Saving dataset: /1.1/instrument/mca_0/data")] []).
Proof. by vm_compute. Qed.

(** The alias statement on a skipped title and on the MCA dataset created
    into an empty file. *)
Lemma alias_check_follows_every_dataset_witness :
  Re.re_match Re.mca_data_pattern (h5_name_of "/" "/1.1/title") = false
  ∧ present h5_mca_data (h5_name_of "/" "/1.1/title") = true
  ∧ (visit_dataset "/1.1/title" [] 11%Z h5_mca_data).1 = Ok tt
  ∧ h5f (visit_dataset "/1.1/title" [] 11%Z h5_mca_data).2 = h5_mca_data
  ∧ Re.re_match Re.mca_data_pattern
      (h5_name_of "/" "/1.1/instrument/mca_0/data") = true
  ∧ ∃ st1,
      links (h5f st1) !! "/1.1/instrument/mca_0/data" = Some (HardLink 0)
      ∧ visit_dataset "/1.1/instrument/mca_0/data" [1; 1024]%nat 7%Z h5_empty
        = create_link false "hard" "/1.1/measurement/mca_0/data"
            (mkH5Handle "/1.1/instrument/mca_0/data" 0) st1.
Proof.
  assert (Re.re_match Re.mca_data_pattern (h5_name_of "/" "/1.1/title") = false)
    as Hoff by (vm_compute; reflexivity).
  assert (present h5_mca_data (h5_name_of "/" "/1.1/title") = true)
    as Hp by (vm_compute; reflexivity).
  assert (Re.re_match Re.mca_data_pattern
            (h5_name_of "/" "/1.1/instrument/mca_0/data") = true)
    as Hon by (vm_compute; reflexivity).
  destruct (alias_check_follows_every_dataset "/" false "hard" ∅ "/1.1/title"
              [] 11%Z (mkState h5_mca_data [] [])) as [Hskip _].
  destruct (Hskip Hoff) as [_ Hkept].
  destruct (Hkept eq_refl Hp) as (Hok & Hsame & _ & _).
  destruct (alias_check_follows_every_dataset "/" false "hard" ∅
              "/1.1/instrument/mca_0/data" [1; 1024]%nat 7%Z
              (mkState h5_empty [] [])) as [_ Hmade].
  destruct (Hmade Hon (or_intror eq_refl)) as (st1 & Hds & _ & Hrun).
  split_and!; [exact Hoff | exact Hp | exact Hok | exact Hsame | exact Hon |].
  exists st1. split; [exact Hds | exact Hrun].
Defined.

(** The link collision policy on the MCA dataset: created while another
    entry stands at its alias path and [overwrite_data] is off, it leaves
    the entry as it is and gets no alias. *)
Lemma alias_not_placed_on_taken_path :
  Re.re_match Re.mca_data_pattern "/1.1/instrument/mca_0/data" = true
  ∧ present h5_measurement_data "/1.1/instrument/mca_0/data" = false
  ∧ (visit_dataset "/1.1/instrument/mca_0/data" [1; 1024]%nat 7%Z
       h5_measurement_data).1 = Ok tt
  ∧ calls (visit_dataset "/1.1/instrument/mca_0/data" [1; 1024]%nat 7%Z
             h5_measurement_data).2
    = [CallCreateDataset "/1.1/instrument/mca_0/data" [1; 1024]%nat 7%Z ∅]
  ∧ links (h5f (visit_dataset "/1.1/instrument/mca_0/data" [1; 1024]%nat 7%Z
                  h5_measurement_data).2) !! "/1.1/instrument/mca_0/data"
    = Some (HardLink 1)
  ∧ links (h5f (visit_dataset "/1.1/instrument/mca_0/data" [1; 1024]%nat 7%Z
                  h5_measurement_data).2) !! "/1.1/measurement/mca_0/data"
    = Some (HardLink 0)
  ∧ log (visit_dataset "/1.1/instrument/mca_0/data" [1; 1024]%nat 7%Z
           h5_measurement_data).2
    = [(DEBUG, "Saving dataset: /1.1/instrument/mca_0/data");
       (WARNING, "/1.1/measurement/mca_0/data already exist. Can't create link to /1.1/instrument/mca_0/data")].
Proof. by vm_compute. Qed.



(** C5, the visit that fails.  On the file the first run left, with
    [overwrite_data] off, the callback on the MCA dataset neither skips nor
    warns: it stops with [UnboundLocalError] before the warning of the
    skip is reached. *)
Theorem existing_mca_dataset_raises :
  present h5_after_first_run "/1.1/instrument/mca_0/data" = true
  ∧ (visit_dataset "/1.1/instrument/mca_0/data" [1; 1024]%nat 7%Z
       h5_after_first_run).1 = Raise (UnboundLocalError "ds")
  ∧ log (visit_dataset "/1.1/instrument/mca_0/data" [1; 1024]%nat 7%Z
           h5_after_first_run).2
    = [(DEBUG, "Saving dataset: /1.1/instrument/mca_0/data")]
  ∧ h5f (visit_dataset "/1.1/instrument/mca_0/data" [1; 1024]%nat 7%Z
           h5_after_first_run).2 = h5_after_first_run.
Proof. by vm_compute. Qed.

(** C7, counterexample.  With [overwrite_data] on, a dataset whose target
    path holds a group deletes it: [/1.1/title], a group of the sample file,
    is a dataset after the run. *)
Lemma overwrite_deletes_group_under_dataset :
  links h5_title_group !! "/1.1/title" = Some (HardLink 1)
  ∧ objects h5_title_group !! 1 = Some H5Group
  ∧ result overwrite_title_run = Ok tt
  ∧ made overwrite_title_run
    = [CallDelItem "/1.1/title"; CallCreateDataset "/1.1/title" [] 11%Z ∅]
  ∧ ∃ f, target overwrite_title_run = Some f
      ∧ links f !! "/1.1/title" = Some (HardLink 2)
      ∧ objects f !! 2 = Some (H5Dataset [] 11%Z ∅).
Proof.
  split_and!; [by vm_compute..|].
  eexists. split; [by vm_compute|]. by vm_compute.
Qed.

(** The theorem on the scan group, taken in one file and free in the
    other. *)
Lemma group_created_only_when_absent_witness :
  present h5_title_group (h5_name_of "/" "/1.1") = true
  ∧ h5f (append_spec_member_to_h5 "/" true "hard" ∅ "/1.1" SpecFileH5Group
           (mkState h5_title_group [] [])).2 = h5_title_group
  ∧ present h5_empty (h5_name_of "/" "/1.1") = false
  ∧ links (h5f (append_spec_member_to_h5 "/" true "hard" ∅ "/1.1"
                  SpecFileH5Group (mkState h5_empty [] [])).2)
    !! h5_name_of "/" "/1.1" = Some (HardLink 0).
Proof.
  assert (present h5_title_group (h5_name_of "/" "/1.1") = true)
    as Htaken by (vm_compute; reflexivity).
  assert (present h5_empty (h5_name_of "/" "/1.1") = false)
    as Hfree by (vm_compute; reflexivity).
  destruct (group_created_only_when_absent "/" true "hard" ∅ "/1.1"
              (mkState h5_title_group [] [])) as [Hkept _].
  destruct (Hkept Htaken) as [Hsame _].
  destruct (group_created_only_when_absent "/" true "hard" ∅ "/1.1"
              (mkState (Data:=Z) h5_empty [] [])) as [_ Hnew].
  destruct (Hnew Hfree) as (_ & Hbound & _).
  split_and!; [exact Htaken | exact Hsame | exact Hfree | exact Hbound].
Defined.

(** The theorem on the mode ["a"]. *)
Lemma convert_rejects_other_modes_witness :
  "a" ≠ "w" ∧ "a" ≠ "w-"
  ∧ (∃ msg,
       result (convert SpecFileH5_nofile File_nofile (Opened mca_tree)
                 (Path "scan.h5") "a" "hard" None) = Raise (IOError msg))
  ∧ made (convert SpecFileH5_nofile File_nofile (Opened mca_tree)
            (Path "scan.h5") "a" "hard" None) = [].
Proof.
  assert ("a" ≠ "w") as Hw by discriminate.
  assert ("a" ≠ "w-") as Hx by discriminate.
  destruct (convert_rejects_other_modes SpecFileH5_nofile File_nofile
              (Opened mca_tree) (Path "scan.h5") "a" "hard" None Hw Hx)
    as (Hr & Hm & _ & _).
  split_and!; [exact Hw | exact Hx | exact Hr | exact Hm].
Defined.


(** The theorem on the [info] entry of the sample file. *)
Lemma link_deleted_before_kind_is_checked_witness :
  "neither" ≠ "hard" ∧ "neither" ≠ "soft"
  ∧ present h5_measurement_only "/1.1/measurement/mca_0/info" = true
  ∧ (∃ msg,
       (create_link true "neither" "/1.1/measurement/mca_0/info"
          (mkH5Handle "/1.1/instrument/mca_0" 4)
          (mkState h5_measurement_only [] [])).1 = Raise (ValueError msg))
  ∧ present
      (h5f (create_link true "neither" "/1.1/measurement/mca_0/info"
              (mkH5Handle "/1.1/instrument/mca_0" 4)
              (mkState h5_measurement_only [] [])).2)
      "/1.1/measurement/mca_0/info" = false.
Proof.
  assert ("neither" ≠ "hard") as Hh by discriminate.
  assert ("neither" ≠ "soft") as Hs by discriminate.
  assert (present h5_measurement_only "/1.1/measurement/mca_0/info" = true)
    as Hp by (vm_compute; reflexivity).
  destruct (proj1 (link_deleted_before_kind_is_checked (Data:=Z))
              "neither" "/1.1/measurement/mca_0/info"
              (mkH5Handle "/1.1/instrument/mca_0" 4)
              (mkState h5_measurement_only [] []) Hh Hs Hp)
    as (Hr & Hgone & _).
  split_and!; [exact Hh | exact Hs | exact Hp | exact Hr | exact Hgone].
Defined.

End OnSamples.

(** ** Traversals *)

Section Traversal.
Context {Data : Type}.
Implicit Types (st : State Data) (obj : SpecMember Data).

Variable h5path : string.
Variable overwrite_data : bool.
Variable link_type : string.
Variable create_dataset_args : Kwargs.

Local Abbreviation visit_member :=
  (append_spec_member_to_h5 h5path overwrite_data link_type
     create_dataset_args).
Local Abbreviation visit_tree :=
  (visititems h5path overwrite_data link_type create_dataset_args).

(** What one member does depends on the file only: the records and calls
    of earlier statements are carried along untouched. *)
Lemma append_frame (spec_h5_name : string) obj st :
  visit_member spec_h5_name obj st
  = let out := visit_member spec_h5_name obj (fresh (h5f st)) in
    (out.1, mkState (h5f out.2) (log st ++ log out.2) (calls st ++ calls out.2)).
Proof.
  destruct st as [[lk ob] lg c], obj; unfold fresh; run; split_tests; run;
    rewrite <- ?app_assoc; cbn [app]; rewrite ?app_nil_r; reflexivity.
Qed.

Lemma visititems_frame (sfh5 : SpecFileH5 Data) st :
  visit_tree sfh5 st
  = let out := visit_tree sfh5 (fresh (h5f st)) in
    (out.1, mkState (h5f out.2) (log st ++ log out.2) (calls st ++ calls out.2)).
Proof.
  revert st. induction sfh5 as [|[nm obj] rest IH]; intros st;
    cbn [visititems].
  - destruct st as [f lg c]. unfold ret, fresh. cbn. by rewrite !app_nil_r.
  - unfold bind. rewrite (append_frame nm obj st). cbn zeta.
    destruct (visit_member nm obj (fresh (h5f st))) as [[[]|e] st1];
      cbn [fst snd]; [|done].
    rewrite (IH (mkState _ _ _)), (IH st1). cbn zeta. cbn [fst snd h5f log calls].
    by rewrite !app_assoc.
Qed.

Lemma bind_assoc {A B C} (m : M Data A) (k1 : A → M Data B)
    (k2 : B → M Data C) st :
  bind (bind m k1) k2 st = bind m (λ a, bind (k1 a) k2) st.
Proof. unfold bind. by destruct (m st) as [[a|e] st1]. Qed.

Lemma visititems_app (t1 t2 : SpecFileH5 Data) st :
  visit_tree (t1 ++ t2) st = bind (visit_tree t1) (λ _, visit_tree t2) st.
Proof.
  revert st. induction t1 as [|[nm obj] rest IH]; intros st.
  - done.
  - cbn [app visititems]. rewrite bind_assoc.
    destruct (visit_member nm obj st) as [[[]|e] st1] eqn:E.
    + rewrite !(bind_ok _ _ _ _ _ E). apply IH.
    + by rewrite !(bind_raise _ _ _ _ _ E).
Qed.

End Traversal.

(** ** What a visit keeps *)

Ltac split_atoms :=
  repeat (match goal with
          | |- context [if ?b then _ else _] =>
              lazymatch b with
              | context [if _ then _ else _] => fail
              | _ => destruct b eqn:?
              end
          end; run).

Section Keeps.
Context {Data : Type}.
Implicit Types (st : State Data) (obj : SpecMember Data).

(** Binding a free name leaves the bound ones as they are. *)
Lemma insert_fresh_keeps (m : gmap string H5Link) (n k : string) (x l : H5Link) :
  bool_decide (is_Some (m !! n)) = false →
  m !! k = Some l → <[n := x]> m !! k = Some l.
Proof.
  intros Hn%bool_decide_eq_false Hk. destruct (decide (n = k)) as [->|].
  - destruct Hn. eauto.
  - by rewrite lookup_insert_ne.
Qed.

(** Objects are only ever added. *)
Lemma append_objects_extend
    (h5path : string) (overwrite_data : bool) (link_type : string)
    (create_dataset_args : Kwargs) (spec_h5_name : string) obj st :
  ∃ added,
    objects (h5f (append_spec_member_to_h5 h5path overwrite_data link_type
                    create_dataset_args spec_h5_name obj st).2)
    = objects (h5f st) ++ added.
Proof.
  destruct st as [[lk ob] lg c], obj; run; split_tests; run;
    eexists; first [symmetry; apply app_nil_r | reflexivity].
Qed.

(** Without [overwrite_data] one member deletes nothing and leaves every
    bound name bound as it was, however it ends. *)
Lemma append_keeps_entries
    (h5path link_type : string) (create_dataset_args : Kwargs)
    (spec_h5_name : string) obj st :
  let out := append_spec_member_to_h5 h5path false link_type
               create_dataset_args spec_h5_name obj st in
  (∀ k l, links (h5f st) !! k = Some l → links (h5f out.2) !! k = Some l)
  ∧ ∃ new, calls out.2 = calls st ++ new ∧ ∀ k, CallDelItem k ∉ new.
Proof.
  destruct st as [[lk ob] lg c], obj; run; split_atoms;
    (split;
     [ intros k l Hk; repeat (apply insert_fresh_keeps; [assumption|]);
       assumption
     | eexists;
       (split; [first [symmetry; apply app_nil_r
                      | rewrite <- ?app_assoc; reflexivity]|]);
       intros k; not_in_calls ]).
Qed.

Lemma visititems_keeps_entries
    (h5path link_type : string) (create_dataset_args : Kwargs)
    (sfh5 : SpecFileH5 Data) st :
  let out := visititems h5path false link_type create_dataset_args sfh5 st in
  (∀ k l, links (h5f st) !! k = Some l → links (h5f out.2) !! k = Some l)
  ∧ (∀ i o, objects (h5f st) !! i = Some o → objects (h5f out.2) !! i = Some o)
  ∧ ∃ new, calls out.2 = calls st ++ new ∧ ∀ k, CallDelItem k ∉ new.
Proof.
  revert st. induction sfh5 as [|[nm obj] rest IH]; intros st;
    cbn [visititems].
  - split_and!; [done..|]. exists []. split; [by rewrite app_nil_r|].
    intros k. apply not_elem_of_nil.
  - destruct (append_keeps_entries h5path link_type create_dataset_args nm obj st)
      as (Hl & new & Hc & Hd).
    destruct (append_objects_extend h5path false link_type create_dataset_args
                nm obj st) as [added Ho].
    destruct (append_spec_member_to_h5 _ _ _ _ nm obj st) as [[[]|e] st1] eqn:E;
      cbn [fst snd] in *.
    + rewrite (bind_ok _ _ _ _ _ E).
      destruct (IH st1) as (Hl' & Ho' & new' & Hc' & Hd').
      split_and!.
      * intros k l Hk. by apply Hl', Hl.
      * intros i o Hi. apply Ho'. rewrite Ho. by apply lookup_app_l_Some.
      * exists (new ++ new'). rewrite Hc', Hc, app_assoc. split; [done|].
        intros k. rewrite elem_of_app. specialize (Hd k). specialize (Hd' k).
        tauto.
    + rewrite (bind_raise _ _ _ _ _ E). cbn [fst snd].
      split_and!; [done| |by eauto].
      intros i o Hi. rewrite Ho. by apply lookup_app_l_Some.
Qed.

(** X1.  Without [overwrite_data], [write_spec_to_h5] on an open file never
    deletes: whatever the tree and however the call ends, no [del] is made,
    every name bound before is bound to the same link after, and every
    object is still there. *)
Theorem no_overwrite_keeps_entries
    (SpecFileH5_init : string → Res (SpecFileH5 Data))
    (h5py_File : string → string → Res (H5File Data))
    (spec_file : PathOr (SpecFileH5 Data)) (f : H5File Data)
    (h5path h5_file_mode link_type : string)
    (create_dataset_args : option Kwargs) :
  let o := write_spec_to_h5 SpecFileH5_init h5py_File spec_file (Opened f)
             h5path h5_file_mode false link_type create_dataset_args in
  (∀ k, CallDelItem k ∉ made o)
  ∧ ∃ f', target o = Some f'
      ∧ (∀ k l, links f !! k = Some l → links f' !! k = Some l)
      ∧ (∀ i ob, objects f !! i = Some ob → objects f' !! i = Some ob).
Proof.
  intros o. subst o. unfold write_spec_to_h5.
  destruct spec_file as [ps|sf]; [destruct (SpecFileH5_init ps) as [sf|e]|];
    cbn beta iota zeta.
  2: { cbn [made target]. split; [intros k; not_in_calls|by eauto]. }
  all: match goal with
       | |- context [visititems ?p false ?lt ?a ?t ?st] =>
           destruct (visititems_keeps_entries p lt a t st)
             as (Hl & Ho & new & Hc & Hd);
           destruct (visititems p false lt a t st) as [[[]|e] st'];
           cbn [fst snd made target h5f calls] in *
       end;
    (split; [|by eauto]); intros k; rewrite Hc; apply not_elem_of_app;
    (split; [not_in_calls | apply Hd]).
Qed.

End Keeps.

(** ** What a visit leaves bound *)

Section Binds.
Context {Data : Type}.
Implicit Types (st : State Data) (obj : SpecMember Data).

(** Presence after an update of the names. *)
Lemma is_bound_insert (lk : gmap string H5Link) (n k : string) (x : H5Link) :
  bool_decide (is_Some (<[n := x]> lk !! k)) = true
  ↔ n = k ∨ bool_decide (is_Some (lk !! k)) = true.
Proof.
  rewrite !bool_decide_eq_true, lookup_insert_is_Some.
  destruct (decide (n = k)); tauto.
Qed.

Lemma is_bound_delete (lk : gmap string H5Link) (n k : string) :
  bool_decide (is_Some (delete n lk !! k)) = true
  ↔ n ≠ k ∧ bool_decide (is_Some (lk !! k)) = true.
Proof. rewrite !bool_decide_eq_true. apply lookup_delete_is_Some. Qed.

End Binds.

(** Decides a statement on which names are bound after inserts and
    deletes, from the tests made on the way. *)
Ltac solve_bound :=
  unfold present in *; cbn [links h5f] in *;
  repeat match goal with
    | H : _ = false |- _ => apply not_true_iff_false in H
    end;
  repeat (rewrite is_bound_insert in * || rewrite is_bound_delete in * );
  repeat match goal with
    | |- context [?a = ?b :> string] =>
        lazymatch goal with
        | H : a = b |- _ => fail
        | H : a ≠ b |- _ => fail
        | _ => destruct (decide (a = b)); [subst|]
        end
    end;
  tauto.

Section Bound.
Context {Data : Type}.
Implicit Types (st : State Data) (obj : SpecMember Data).

(** A member that ends well loses no name and, unless it is a link, ends
    with its own path bound. *)
Lemma append_ok_present
    (h5path : string) (overwrite_data : bool) (link_type : string)
    (create_dataset_args : Kwargs) (spec_h5_name : string) obj st st' :
  append_spec_member_to_h5 h5path overwrite_data link_type
    create_dataset_args spec_h5_name obj st = (Ok tt, st') →
  (∀ k, present (h5f st) k = true → present (h5f st') k = true)
  ∧ (is_link obj = false →
     present (h5f st') (h5_name_of h5path spec_h5_name) = true).
Proof.
  destruct st as [[lk ob] lg c], obj; run; split_atoms;
    intros [= <-]; cbn [h5f is_link];
    (split; [intros k Hk | intros Hnl]); try done; solve_bound.
Qed.

Lemma visititems_ok_present
    (h5path : string) (overwrite_data : bool) (link_type : string)
    (create_dataset_args : Kwargs) (sfh5 : SpecFileH5 Data) st st' :
  visititems h5path overwrite_data link_type create_dataset_args sfh5 st
    = (Ok tt, st') →
  (∀ k, present (h5f st) k = true → present (h5f st') k = true)
  ∧ Forall (λ member, is_link member.2 = false →
                      present (h5f st') (h5_name_of h5path member.1) = true)
           sfh5.
Proof.
  revert st. induction sfh5 as [|[nm obj] rest IH]; intros st;
    cbn [visititems].
  - by intros [= <-].
  - destruct (append_spec_member_to_h5 h5path overwrite_data link_type
                create_dataset_args nm obj st) as [[[]|e] st1] eqn:E.
    + rewrite (bind_ok _ _ _ _ _ E). intros [Hmono Hall]%IH.
      apply append_ok_present in E as [Hmono1 Hown].
      split; [by auto|]. constructor; [|done]. cbn [fst snd]. by auto.
    + by rewrite (bind_raise _ _ _ _ _ E).
Qed.

(** X2.  Without [overwrite_data], a conversion that completes leaves
    every group and every dataset of the tree bound at its target path,
    under the mount path, beside every name the file held before. *)
Theorem completed_conversion_binds_members
    (SpecFileH5_init : string → Res (SpecFileH5 Data))
    (h5py_File : string → string → Res (H5File Data))
    (sfh5 : SpecFileH5 Data) (f : H5File Data)
    (h5path h5_file_mode link_type : string)
    (create_dataset_args : option Kwargs) :
  let o := write_spec_to_h5 SpecFileH5_init h5py_File (Opened sfh5) (Opened f)
             h5path h5_file_mode false link_type create_dataset_args in
  result o = Ok tt →
  ∃ f', target o = Some f'
    ∧ (∀ k, present f k = true → present f' k = true)
    ∧ Forall (λ member,
                is_link member.2 = false →
                present f' (h5_name_of (mount h5path) member.1) = true)
             sfh5.
Proof.
  intros o. subst o. unfold write_spec_to_h5. cbn beta iota zeta.
  fold (mount h5path).
  destruct (visititems _ _ _ _ sfh5 _) as [[[]|e] st'] eqn:E;
    cbn [result target]; [|done].
  intros _. apply visititems_ok_present in E as [Hmono Hall]. eauto.
Qed.

(** X3.  A dataset that is created (its path free, or [overwrite_data] on)
    is bound at its target path to a new object with the member's shape
    and data, whatever becomes of its alias: link made, link skipped or
    link type refused. *)
Theorem created_dataset_holds_data
    (h5path : string) (overwrite_data : bool) (link_type : string)
    (create_dataset_args : Kwargs) (spec_h5_name : string)
    (shape : list nat) (data : Data) st :
  let h5_name := h5_name_of h5path spec_h5_name in
  let oid := length (objects (h5f st)) in
  let out := append_spec_member_to_h5 h5path overwrite_data link_type
               create_dataset_args spec_h5_name
               (SpecFileH5Dataset shape data) st in
  overwrite_data = true ∨ present (h5f st) h5_name = false →
  links (h5f out.2) !! h5_name = Some (HardLink oid)
  ∧ objects (h5f out.2) !! oid
    = Some (H5Dataset shape data
              (if bool_decide (shape = []) then ∅ else create_dataset_args)).
Proof.
  intros h5_name oid out. subst out oid.
  destruct st as [[lk ob] lg c].
  assert (Re.re_match Re.mca_data_pattern h5_name = true →
          PyStr.replace h5_name "instrument" "measurement" ≠ h5_name) as Hne
    by apply data_alias_fresh.
  run. fold h5_name. intros Hc.
  destruct (Re.re_match Re.mca_data_pattern h5_name);
    [specialize (Hne eq_refl)|clear Hne];
    split_atoms; try (destruct Hc; congruence);
    (split; [ by rewrite ?lookup_insert_ne, ?lookup_delete_ne,
                         ?lookup_insert_eq by done
            | by apply list_lookup_middle ]).
Qed.



End Bound.

(** ** How a visit can end *)

Section Endings.
Context {Data : Type}.
Implicit Types (st : State Data) (obj : SpecMember Data).

(** The calls of a traversal are calls on the open file. *)
Lemma append_calls_on_file
    (h5path : string) (overwrite_data : bool) (link_type : string)
    (create_dataset_args : Kwargs) (spec_h5_name : string) obj st :
  ∃ new,
    calls (append_spec_member_to_h5 h5path overwrite_data link_type
             create_dataset_args spec_h5_name obj st).2 = calls st ++ new
    ∧ (CallClose ∉ new)
    ∧ ∀ c nm, c ∈ new → creation_name c = Some nm →
              nm = h5_name_of h5path spec_h5_name.
Proof.
  destruct st as [[lk ob] lg c], obj; run; split_atoms;
    eexists;
    (split; [first [symmetry; apply app_nil_r
                   | rewrite <- ?app_assoc; reflexivity]|]);
    (split; [not_in_calls|]);
    intros c0 nm; cbn [app];
    rewrite ?elem_of_cons, ?elem_of_nil;
    intros Hin Hn;
    repeat match goal with H : _ ∨ _ |- _ => destruct H as [H|H] end;
    subst; try done; cbn in Hn; congruence.
Qed.

Lemma visititems_calls_on_file
    (h5path : string) (overwrite_data : bool) (link_type : string)
    (create_dataset_args : Kwargs) (sfh5 : SpecFileH5 Data) st :
  ∃ new,
    calls (visititems h5path overwrite_data link_type create_dataset_args
             sfh5 st).2 = calls st ++ new
    ∧ (CallClose ∉ new)
    ∧ ∀ c nm, c ∈ new → creation_name c = Some nm →
              String.prefix h5path nm = true.
Proof.
  revert st. induction sfh5 as [|[nm obj] rest IH]; intros st;
    cbn [visititems].
  - exists []. split_and!; [by rewrite app_nil_r|apply not_elem_of_nil|].
    intros c nm' []%elem_of_nil.
  - destruct (append_calls_on_file h5path overwrite_data link_type
                create_dataset_args nm obj st) as (new & Hc & Hcl & Hn).
    assert (∀ c nm', c ∈ new → creation_name c = Some nm' →
                     String.prefix h5path nm' = true) as Hpre.
    { intros c nm' Hin Hcn. rewrite (Hn c nm' Hin Hcn). apply prefix_app. }
    destruct (append_spec_member_to_h5 h5path overwrite_data link_type
                create_dataset_args nm obj st) as [[[]|e] st1] eqn:E;
      cbn [fst snd] in *.
    + rewrite (bind_ok _ _ _ _ _ E).
      destruct (IH st1) as (new' & Hc' & Hcl' & Hn').
      exists (new ++ new'). rewrite Hc', Hc, app_assoc.
      split_and!; [done|rewrite elem_of_app; tauto|].
      intros c nm' [Hin|Hin]%elem_of_app; eauto.
    + rewrite (bind_raise _ _ _ _ _ E). cbn [snd]. eauto.
Qed.

(** X7.  When the handle is read unassigned.  A dataset member raises
    [UnboundLocalError] for [ds] exactly when it is skipped on the dataset
    pattern (path taken, [overwrite_data] off); a group member raises it
    for [grp] exactly when its path is taken and on the group pattern,
    with or without [overwrite_data].  The file is as it was. *)
Theorem unassigned_handle_read_iff
    (h5path : string) (overwrite_data : bool) (link_type : string)
    (create_dataset_args : Kwargs) (spec_h5_name : string)
    (shape : list nat) (data : Data) st :
  let h5_name := h5_name_of h5path spec_h5_name in
  let visit := append_spec_member_to_h5 h5path overwrite_data link_type
                 create_dataset_args spec_h5_name in
  ((visit (SpecFileH5Dataset shape data) st).1 = Raise (UnboundLocalError "ds")
   ↔ overwrite_data = false ∧ present (h5f st) h5_name = true
     ∧ Re.re_match Re.mca_data_pattern h5_name = true)
  ∧ ((visit SpecFileH5Group st).1 = Raise (UnboundLocalError "grp")
     ↔ present (h5f st) h5_name = true
       ∧ Re.re_match Re.mca_group_pattern h5_name = true)
  ∧ (∀ obj var, (visit obj st).1 = Raise (UnboundLocalError var) →
       h5f (visit obj st).2 = h5f st ∧ calls (visit obj st).2 = calls st).
Proof.
  intros h5_name visit. subst visit. destruct st as [[lk ob] lg c].
  split_and!.
  - run. fold h5_name.
    destruct overwrite_data, (bool_decide (is_Some (lk !! h5_name))),
      (Re.re_match Re.mca_data_pattern h5_name); run;
      split_atoms; cbn [fst]; split; try done; try (by intros (? & ? & ?)).
  - run. fold h5_name.
    destruct (bool_decide (is_Some (lk !! h5_name))),
      (Re.re_match Re.mca_group_pattern h5_name); run;
      split_atoms; cbn [fst]; split; try done; try (by intros [? ?]).
  - intros obj var. destruct obj; run; split_atoms; cbn [fst snd]; done.
Qed.

End Endings.

(** ** The call as a whole *)

Section WholeCall.
Context {Data : Type}.
Implicit Types (st : State Data) (obj : SpecMember Data).

Variable SpecFileH5_init : string → Res (SpecFileH5 Data).
Variable h5py_File : string → string → Res (H5File Data).

Lemma endswith_refl (s : string) : PyStr.endswith s s = true.
Proof. destruct s; cbn [PyStr.endswith]; by rewrite String.eqb_refl. Qed.

Lemma endswith_app (s t : string) : PyStr.endswith (s +:+ t) t = true.
Proof.
  induction s as [|a s IH]; [apply endswith_refl|].
  rewrite string_app_cons. cbn [PyStr.endswith].
  rewrite IH. by destruct (_ =? _)%string.
Qed.

Lemma mount_idemp (h5path : string) : mount (mount h5path) = mount h5path.
Proof.
  unfold mount at 1. destruct (PyStr.endswith (mount h5path) "/") eqn:E; [done|].
  unfold mount in E. destruct (PyStr.endswith h5path "/") eqn:E'; [congruence|].
  by rewrite endswith_app in E.
Qed.

(** X9.  [h5path] counts through its normal form only: with or without the
    trailing separator the call is the same call. *)
Theorem mount_path_separator_optional
    (spec_file : PathOr (SpecFileH5 Data)) (h5_file : PathOr (H5File Data))
    (h5path h5_file_mode : string) (overwrite_data : bool)
    (link_type : string) (create_dataset_args : option Kwargs) :
  write_spec_to_h5 SpecFileH5_init h5py_File spec_file h5_file h5path
    h5_file_mode overwrite_data link_type create_dataset_args
  = write_spec_to_h5 SpecFileH5_init h5py_File spec_file h5_file
      (mount h5path) h5_file_mode overwrite_data link_type
      create_dataset_args.
Proof.
  unfold write_spec_to_h5.
  change (if PyStr.endswith (mount h5path) "/" then mount h5path
          else mount h5path ++ "/")%string with (mount (mount h5path)).
  by rewrite mount_idemp.
Qed.

(** Opens every path of [write_spec_to_h5] down to the traversal. *)
Ltac open_call spec_file h5_file :=
  unfold write_spec_to_h5;
  destruct spec_file as [?ps|?sf];
    try match goal with
      | |- context [SpecFileH5_init ?p] =>
          destruct (SpecFileH5_init p) as [?sf|?e]
      end;
    destruct h5_file as [?ph|?f];
    try match goal with
      | |- context [h5py_File ?p ?m] => destruct (h5py_File p m) as [?f|?e]
      end;
    cbn beta iota zeta.

(** X11.  The file is closed exactly when the call opened it itself and the
    traversal completed: a file given open is never closed, and a file
    opened here stays open when the call ends in an error. *)
Theorem closes_iff_opened_and_completed
    (spec_file : PathOr (SpecFileH5 Data)) (h5_file : PathOr (H5File Data))
    (h5path h5_file_mode : string) (overwrite_data : bool)
    (link_type : string) (create_dataset_args : option Kwargs) :
  let o := write_spec_to_h5 SpecFileH5_init h5py_File spec_file h5_file h5path
             h5_file_mode overwrite_data link_type create_dataset_args in
  CallClose ∈ made o ↔ is_path h5_file = true ∧ result o = Ok tt.
Proof.
  intros o. subst o. open_call spec_file h5_file;
    try (cbn [made result is_path app];
         rewrite ?elem_of_cons, ?elem_of_nil; intuition (auto; congruence)).
  all: match goal with
       | |- context [visititems ?p ?ow ?lt ?a ?t ?st] =>
           destruct (visititems_calls_on_file p ow lt a t st)
             as (new & Hc & Hcl & _);
           destruct (visititems p ow lt a t st) as [[[]|?e] st'];
           cbn [fst snd made result calls is_path] in *
       end;
    rewrite Hc; cbn [app];
    repeat (rewrite elem_of_app || rewrite elem_of_cons
            || rewrite elem_of_nil);
    intuition (auto; congruence).
Qed.

(** What a traversal does to the file and which calls it makes do not
    depend on the records and calls before it. *)
Lemma visititems_same_file
    (h5path : string) (overwrite_data : bool) (link_type : string)
    (create_dataset_args : Kwargs) (sfh5 : SpecFileH5 Data) st1 st2 :
  h5f st1 = h5f st2 → calls st1 = calls st2 →
  let out1 := visititems h5path overwrite_data link_type create_dataset_args
                sfh5 st1 in
  let out2 := visititems h5path overwrite_data link_type create_dataset_args
                sfh5 st2 in
  out1.1 = out2.1 ∧ h5f out1.2 = h5f out2.2 ∧ calls out1.2 = calls out2.2.
Proof.
  intros Hf Hc.
  rewrite (visititems_frame _ _ _ _ sfh5 st1),
    (visititems_frame _ _ _ _ sfh5 st2).
  cbn zeta. cbn [fst snd h5f calls]. by rewrite Hf, Hc.
Qed.

Lemma visititems_without_links
    (h5path : string) (overwrite_data : bool) (link_type : string)
    (create_dataset_args : Kwargs) (sfh5 : SpecFileH5 Data) st :
  let out := visititems h5path overwrite_data link_type create_dataset_args
               sfh5 st in
  let out' := visititems h5path overwrite_data link_type create_dataset_args
                (List.filter (λ member, negb (is_link member.2)) sfh5) st in
  out.1 = out'.1 ∧ h5f out.2 = h5f out'.2 ∧ calls out.2 = calls out'.2.
Proof.
  revert st. induction sfh5 as [|[nm obj] rest IH]; intros st; [done|].
  cbn [List.filter fst snd].
  destruct (is_link obj) eqn:Hl; cbn [negb].
  - assert (∃ msg, append_spec_member_to_h5 h5path overwrite_data link_type
                     create_dataset_args nm obj st
                   = (Ok tt, mkState (h5f st) (log st ++ [(DEBUG, msg)])
                                     (calls st))) as [msg E].
    { destruct obj; try discriminate; eexists; reflexivity. }
    cbn [visititems]. rewrite (bind_ok _ _ _ _ _ E).
    destruct (IH st) as (H1 & H2 & H3).
    destruct (visititems_same_file h5path overwrite_data link_type
                create_dataset_args rest
                (mkState (h5f st) (log st ++ [(DEBUG, msg)]) (calls st)) st
                eq_refl eq_refl) as (G1 & G2 & G3).
    cbn zeta in *. split_and!; congruence.
  - cbn [visititems].
    destruct (append_spec_member_to_h5 h5path overwrite_data link_type
                create_dataset_args nm obj st) as [[[]|e] st1] eqn:E.
    + rewrite !(bind_ok _ _ _ _ _ E). apply IH.
    + by rewrite !(bind_raise _ _ _ _ _ E).
Qed.

(** X12.  The link members of the tree contribute nothing: with them or
    without them the call ends the same way, leaves the same file and makes
    the same calls (they only add a debug record each). *)
Theorem link_members_contribute_nothing
    (sfh5 : SpecFileH5 Data) (h5_file : PathOr (H5File Data))
    (h5path h5_file_mode : string) (overwrite_data : bool)
    (link_type : string) (create_dataset_args : option Kwargs) :
  let o := write_spec_to_h5 SpecFileH5_init h5py_File (Opened sfh5) h5_file
             h5path h5_file_mode overwrite_data link_type
             create_dataset_args in
  let o' := write_spec_to_h5 SpecFileH5_init h5py_File
              (Opened (List.filter (λ member, negb (is_link member.2)) sfh5))
              h5_file h5path h5_file_mode overwrite_data link_type
              create_dataset_args in
  result o = result o' ∧ target o = target o' ∧ made o = made o'.
Proof.
  intros o o'. subst o o'. unfold write_spec_to_h5. cbn beta iota zeta.
  destruct h5_file as [ph|f]; [destruct (h5py_File ph h5_file_mode) as [f|e]|];
    cbn beta iota zeta; try done;
    match goal with
    | |- context [visititems ?p ?ow ?lt ?a sfh5 ?st] =>
        destruct (visititems_without_links p ow lt a sfh5 st)
          as (H1 & H2 & H3);
        destruct (visititems p ow lt a sfh5 st) as [r st1];
        destruct (visititems p ow lt a (List.filter _ sfh5) st)
          as [r' st1']
    end;
    cbn [fst snd] in *; subst r';
    destruct r as [[]|e]; cbn [result target made]; by rewrite H2, H3.
Qed.

(** X13.  Two trees written one after the other into an open file are their
    concatenation written at once: same ending, same file, and the records
    and calls of the two calls in a row.  When the first call fails, the
    second tree is never reached. *)
Theorem conversion_in_two_steps
    (t1 t2 : SpecFileH5 Data) (f : H5File Data)
    (h5path h5_file_mode : string) (overwrite_data : bool)
    (link_type : string) (create_dataset_args : option Kwargs) :
  let write t g :=
    write_spec_to_h5 SpecFileH5_init h5py_File (Opened t) (Opened g) h5path
      h5_file_mode overwrite_data link_type create_dataset_args in
  (∀ f1, result (write t1 f) = Ok tt → target (write t1 f) = Some f1 →
     result (write (t1 ++ t2) f) = result (write t2 f1)
     ∧ target (write (t1 ++ t2) f) = target (write t2 f1)
     ∧ records (write (t1 ++ t2) f)
       = records (write t1 f) ++ records (write t2 f1)
     ∧ made (write (t1 ++ t2) f) = made (write t1 f) ++ made (write t2 f1))
  ∧ (∀ e, result (write t1 f) = Raise e → write (t1 ++ t2) f = write t1 f).
Proof.
  intros write. subst write. cbn beta. unfold write_spec_to_h5.
  cbn beta iota zeta. rewrite visititems_app.
  set (p := if PyStr.endswith h5path "/" then h5path else (h5path ++ "/")%string).
  set (a := default ∅ create_dataset_args).
  destruct (visititems p overwrite_data link_type a t1 (mkState f [] []))
    as [[[]|e1] st1] eqn:E1.
  - rewrite (bind_ok _ _ _ _ _ E1). cbn [result target records made].
    split; [|done]. intros f1 _ [= <-].
    rewrite (visititems_frame _ _ _ _ t2 st1). cbn zeta. unfold fresh.
    destruct (visititems p overwrite_data link_type a t2
                (mkState (h5f st1) [] [])) as [[[]|e2] st2];
      cbn [fst snd result target records made h5f log calls]; done.
  - rewrite (bind_raise _ _ _ _ _ E1). cbn [result]. split; [done|].
    by intros e [= <-].
Qed.

End WholeCall.

(** ** The two patterns, as sets of paths *)

Section PatternLanguage.
Import Re.

Lemma matches_star_cls_inv (p : ascii → bool) (s : string) :
  matches (Star (Cls p)) s → all_chars p s = true.
Proof.
  intros H. remember (Star (Cls p)) as r eqn:Hr.
  induction H; try done. injection Hr as ->.
  apply matches_cls_inv in H as (a & -> & Ha).
  rewrite all_chars_app. cbn [all_chars]. rewrite Ha. by apply IHmatches2.
Qed.

Lemma matches_plus_digit_inv (s : string) :
  matches (plus digit) s → digits s = true.
Proof.
  intros (s1 & s2 & -> & (a & -> & Ha)%matches_cls_inv
          & Hs%matches_star_cls_inv)%matches_seq_inv.
  unfold digits. rewrite string_app_cons. cbn [all_chars String.eqb negb andb].
  by rewrite Ha.
Qed.

Lemma matches_opt_chr (c : ascii) (s : string) :
  matches (opt (Cls (Ascii.eqb c))) s ↔ s = "" ∨ s = String c "".
Proof.
  split.
  - intros [(a & -> & ->%Ascii.eqb_eq)%matches_cls_inv
           | ->%matches_eps_inv]%matches_alt_inv; auto.
  - intros [-> | ->]; [apply MAltR, MEps|].
    apply MAltL, MCls, Ascii.eqb_refl.
Qed.

Lemma matches_dollar (s : string) :
  matches dollar s ↔ s = "" ∨ s = String "010" "".
Proof.
  split.
  - intros [(a & -> & Ha)%matches_cls_inv
           | ->%matches_eps_inv]%matches_alt_inv; [|auto].
    apply Ascii.eqb_eq in Ha as ->. auto.
  - intros [-> | ->]; [apply MAltR, MEps | by apply MAltL, MCls].
Qed.

Lemma mca_prefix_inv (s : string) :
  matches mca_prefix s →
  ∃ pre scan1 scan2 index sep,
    s = pre +:+ "/" +:+ scan1 +:+ "." +:+ scan2 +:+ "/instrument/mca_"
        +:+ index +:+ sep
    ∧ all_chars (λ a, negb (is_newline a)) pre = true
    ∧ digits scan1 = true ∧ digits scan2 = true ∧ digits index = true
    ∧ (sep = "" ∨ sep = "/").
Proof.
  unfold mca_prefix.
  intros (pre & ? & -> & Hpre%matches_star_cls_inv & H)%matches_seq_inv.
  apply matches_seq_inv in H as (sl & ? & -> & Hsl & H).
  apply matches_cls_inv in Hsl as (a & -> & <-%Ascii.eqb_eq).
  apply matches_seq_inv in H as (scan1 & ? & -> & H1%matches_plus_digit_inv & H).
  apply matches_seq_inv in H as (dt & ? & -> & Hdt & H).
  apply matches_cls_inv in Hdt as (b & -> & <-%Ascii.eqb_eq).
  apply matches_seq_inv in H as (scan2 & ? & -> & H2%matches_plus_digit_inv & H).
  apply matches_seq_inv in H as (lt & ? & -> & ->%matches_lit & H).
  apply matches_seq_inv in H
    as (index & sep & -> & H3%matches_plus_digit_inv & Hsep).
  apply (matches_opt_chr "/") in Hsep.
  exists pre, scan1, scan2, index, sep. by split_and!.
Qed.

(** X14.  The paths the two patterns accept.  A target path is on the dataset
    pattern exactly when it reads
    [<prefix>/<digits>.<digits>/instrument/mca_<digits>], an optional
    separator, [data] and an optional final newline, the prefix free of
    newlines; on the group pattern, the same without [data]. *)
Theorem alias_patterns_language (s : string) :
  (re_match mca_data_pattern s = true
   ↔ ∃ pre scan1 scan2 index sep nl,
       s = pre +:+ "/" +:+ scan1 +:+ "." +:+ scan2 +:+ "/instrument/mca_"
           +:+ index +:+ sep +:+ "data" +:+ nl
       ∧ all_chars (λ a, negb (is_newline a)) pre = true
       ∧ digits scan1 = true ∧ digits scan2 = true ∧ digits index = true
       ∧ (sep = "" ∨ sep = "/") ∧ (nl = "" ∨ nl = String "010" ""))
  ∧ (re_match mca_group_pattern s = true
     ↔ ∃ pre scan1 scan2 index sep nl,
         s = pre +:+ "/" +:+ scan1 +:+ "." +:+ scan2 +:+ "/instrument/mca_"
             +:+ index +:+ sep +:+ nl
         ∧ all_chars (λ a, negb (is_newline a)) pre = true
         ∧ digits scan1 = true ∧ digits scan2 = true ∧ digits index = true
         ∧ (sep = "" ∨ sep = "/") ∧ (nl = "" ∨ nl = String "010" "")).
Proof.
  unfold re_match, mca_data_pattern, mca_group_pattern.
  rewrite !accepts_matches. split; split.
  - intros (s1 & ? & -> & H1%mca_prefix_inv & H)%matches_seq_inv.
    apply matches_seq_inv in H as (d & nl & -> & ->%matches_lit & Hnl%matches_dollar).
    destruct H1 as (pre & scan1 & scan2 & index & sep & -> & Hpre & Hs1 & Hs2
                    & Hi & Hsep).
    exists pre, scan1, scan2, index, sep, nl.
    rewrite !string_app_assoc. by split_and!.
  - intros (pre & scan1 & scan2 & index & sep & nl & -> & Hpre & H1 & H2 & H3
            & Hsep & Hnl).
    replace (pre +:+ "/" +:+ scan1 +:+ "." +:+ scan2 +:+ "/instrument/mca_"
             +:+ index +:+ sep +:+ "data" +:+ nl)
      with ((pre +:+ "/" +:+ scan1 +:+ "." +:+ scan2 +:+ "/instrument/mca_"
             +:+ index +:+ sep) +:+ ("data" +:+ nl))
      by (by rewrite !string_app_assoc).
    apply MSeq; [by apply mca_prefix_matches|].
    apply MSeq; [by apply matches_lit | by apply matches_dollar].
  - intros (s1 & nl & -> & H1%mca_prefix_inv & Hnl%matches_dollar)%matches_seq_inv.
    destruct H1 as (pre & scan1 & scan2 & index & sep & -> & Hpre & Hs1 & Hs2
                    & Hi & Hsep).
    exists pre, scan1, scan2, index, sep, nl.
    rewrite !string_app_assoc. by split_and!.
  - intros (pre & scan1 & scan2 & index & sep & nl & -> & Hpre & H1 & H2 & H3
            & Hsep & Hnl).
    replace (pre +:+ "/" +:+ scan1 +:+ "." +:+ scan2 +:+ "/instrument/mca_"
             +:+ index +:+ sep +:+ nl)
      with ((pre +:+ "/" +:+ scan1 +:+ "." +:+ scan2 +:+ "/instrument/mca_"
             +:+ index +:+ sep) +:+ nl)
      by (by rewrite !string_app_assoc).
    apply MSeq; [by apply mca_prefix_matches | by apply matches_dollar].
Qed.

End PatternLanguage.

(** ** The further properties on the sample trees *)

Section FurtherOnSamples.
Import Sample.

(** The theorem on the sample tree written into the file that holds the
    MCA dataset and a title. *)
Lemma no_overwrite_keeps_entries_witness :
  links h5_mca_data !! "/1.1/title" = Some (HardLink 1)
  ∧ ∃ f', target (write_spec_to_h5 SpecFileH5_nofile File_nofile
                    (Opened mca_tree) (Opened h5_mca_data) "/" "a" false
                    "hard" None) = Some f'
      ∧ links f' !! "/1.1/title" = Some (HardLink 1).
Proof.
  assert (links h5_mca_data !! "/1.1/title" = Some (HardLink 1))
    as Hk by (vm_compute; reflexivity).
  destruct (no_overwrite_keeps_entries SpecFileH5_nofile File_nofile
              (Opened mca_tree) h5_mca_data "/" "a" "hard" None)
    as (_ & f' & Ht & Hl & _).
  split; [exact Hk|]. exists f'. split; [exact Ht | exact (Hl _ _ Hk)].
Defined.

(** The theorem on the title tree written into an empty file. *)
Lemma completed_conversion_binds_members_witness :
  result (write_spec_to_h5 SpecFileH5_nofile File_nofile (Opened title_tree)
            (Opened h5_empty) "/" "a" false "hard" None) = Ok tt
  ∧ ∃ f',
      target (write_spec_to_h5 SpecFileH5_nofile File_nofile
                (Opened title_tree) (Opened h5_empty) "/" "a" false "hard"
                None) = Some f'
      ∧ present f' "/1.1" = true ∧ present f' "/1.1/title" = true.
Proof.
  assert (result (write_spec_to_h5 SpecFileH5_nofile File_nofile
                    (Opened title_tree) (Opened h5_empty) "/" "a" false "hard"
                    None) = Ok tt) as Hr by (vm_compute; reflexivity).
  destruct (completed_conversion_binds_members SpecFileH5_nofile File_nofile
              title_tree h5_empty "/" "a" "hard" None Hr)
    as (f' & Ht & _ & Hall).
  split; [exact Hr|]. exists f'. split; [exact Ht|].
  apply Forall_cons in Hall as [Hscan Hall].
  apply Forall_cons in Hall as [Htitle _].
  split; [exact (Hscan eq_refl) | exact (Htitle eq_refl)].
Defined.

(** The theorem on the title of the sample tree, into an empty file. *)
Lemma created_dataset_holds_data_witness :
  present h5_empty (h5_name_of "/" "/1.1/title") = false
  ∧ links (h5f (visit_dataset "/1.1/title" [] 11%Z h5_empty).2)
    !! h5_name_of "/" "/1.1/title" = Some (HardLink 0)
  ∧ objects (h5f (visit_dataset "/1.1/title" [] 11%Z h5_empty).2) !! 0
    = Some (H5Dataset [] 11%Z ∅).
Proof.
  assert (present h5_empty (h5_name_of "/" "/1.1/title") = false)
    as Hfree by (vm_compute; reflexivity).
  destruct (created_dataset_holds_data "/" false "hard" ∅ "/1.1/title" []
              11%Z (mkState h5_empty [] []) (or_intror Hfree)) as [Hl Ho].
  split_and!; [exact Hfree | exact Hl | exact Ho].
Defined.



(** The theorem on the MCA dataset met again. *)
Lemma unassigned_handle_read_iff_witness :
  present h5_mca_data (h5_name_of "/" "/1.1/instrument/mca_0/data") = true
  ∧ Re.re_match Re.mca_data_pattern
      (h5_name_of "/" "/1.1/instrument/mca_0/data") = true
  ∧ (visit_dataset "/1.1/instrument/mca_0/data" [1; 1024]%nat 7%Z
       h5_mca_data).1 = Raise (UnboundLocalError "ds").
Proof.
  assert (present h5_mca_data (h5_name_of "/" "/1.1/instrument/mca_0/data")
          = true) as Hp by (vm_compute; reflexivity).
  assert (Re.re_match Re.mca_data_pattern
            (h5_name_of "/" "/1.1/instrument/mca_0/data") = true)
    as Hon by (vm_compute; reflexivity).
  destruct (unassigned_handle_read_iff "/" false "hard" ∅
              "/1.1/instrument/mca_0/data" [1; 1024]%nat 7%Z
              (mkState h5_mca_data [] [])) as [[_ Hds] _].
  split_and!; [exact Hp | exact Hon | exact (Hds (conj eq_refl (conj Hp Hon)))].
Defined.

(** The theorem on a file opened by the call under the mode ["w"]. *)
Lemma closes_iff_opened_and_completed_witness :
  is_path (Path (A:=H5File Z) "scan.h5") = true
  ∧ result (write_spec_to_h5 SpecFileH5_nofile File_nofile
              (Opened title_tree) (Path "scan.h5") "/" "w" false "hard" None)
    = Ok tt
  ∧ CallClose ∈ made (write_spec_to_h5 SpecFileH5_nofile File_nofile
                        (Opened title_tree) (Path "scan.h5") "/" "w" false
                        "hard" None).
Proof.
  assert (result (write_spec_to_h5 SpecFileH5_nofile File_nofile
                    (Opened title_tree) (Path "scan.h5") "/" "w" false "hard"
                    None) = Ok tt) as Hr by (vm_compute; reflexivity).
  split_and!; [reflexivity | exact Hr |].
  exact (proj2 (closes_iff_opened_and_completed SpecFileH5_nofile File_nofile
                  (Opened title_tree) (Path "scan.h5") "/" "w" false "hard"
                  None) (conj eq_refl Hr)).
Defined.

(** The theorem on the title tree followed by the sample tree. *)
Lemma conversion_in_two_steps_witness :
  result (write_spec_to_h5 SpecFileH5_nofile File_nofile (Opened title_tree)
            (Opened h5_empty) "/" "a" false "hard" None) = Ok tt
  ∧ ∃ f1,
      target (write_spec_to_h5 SpecFileH5_nofile File_nofile
                (Opened title_tree) (Opened h5_empty) "/" "a" false "hard"
                None) = Some f1
      ∧ target (write_spec_to_h5 SpecFileH5_nofile File_nofile
                  (Opened (title_tree ++ mca_tree)) (Opened h5_empty) "/" "a"
                  false "hard" None)
        = target (write_spec_to_h5 SpecFileH5_nofile File_nofile
                    (Opened mca_tree) (Opened f1) "/" "a" false "hard" None).
Proof.
  assert (result (write_spec_to_h5 SpecFileH5_nofile File_nofile
                    (Opened title_tree) (Opened h5_empty) "/" "a" false "hard"
                    None) = Ok tt) as Hr by (vm_compute; reflexivity).
  split; [exact Hr|].
  destruct (target (write_spec_to_h5 SpecFileH5_nofile File_nofile
                      (Opened title_tree) (Opened h5_empty) "/" "a" false
                      "hard" None)) as [f1|] eqn:Ht; [|by vm_compute in Ht].
  exists f1. split; [reflexivity|].
  destruct (conversion_in_two_steps SpecFileH5_nofile File_nofile title_tree
              mca_tree h5_empty "/" "a" false "hard" None) as [Hstep _].
  destruct (Hstep f1 Hr Ht) as (_ & Htg & _ & _). exact Htg.
Defined.

(** The theorem on the MCA dataset path followed by a newline. *)
Lemma alias_patterns_language_witness :
  Re.all_chars (λ a, negb (Re.is_newline a)) "" = true
  ∧ Re.digits "1" = true ∧ Re.digits "0" = true
  ∧ Re.re_match Re.mca_data_pattern
      ("" +:+ "/" +:+ "1" +:+ "." +:+ "1" +:+ "/instrument/mca_" +:+ "0"
       +:+ "/" +:+ "data" +:+ String "010" "") = true.
Proof.
  split_and!; [reflexivity..|].
  apply (proj2 (proj1 (alias_patterns_language _))).
  exists "", "1", "1", "0", "/", (String "010" "").
  split_and!; [reflexivity..|by right|by right].
Defined.

End FurtherOnSamples.

(** ** Running again *)

Section Rerun.
Context {Data : Type}.

(** X8.  Where no target path is on an alias pattern, once a conversion
    without [overwrite_data] has completed, converting the same tree again
    into the file it left is a plain skip: the second call completes, makes
    no call on the file and leaves it as it was. *)
Theorem rerun_off_alias_is_skip
    (SpecFileH5_init : string → Res (SpecFileH5 Data))
    (h5py_File : string → string → Res (H5File Data))
    (sfh5 : SpecFileH5 Data) (f f1 : H5File Data)
    (h5path h5_file_mode link_type : string)
    (create_dataset_args : option Kwargs) :
  let write g :=
    write_spec_to_h5 SpecFileH5_init h5py_File (Opened sfh5) (Opened g) h5path
      h5_file_mode false link_type create_dataset_args in
  Forall (off_alias (mount h5path)) sfh5 →
  result (write f) = Ok tt →
  target (write f) = Some f1 →
  result (write f1) = Ok tt
  ∧ target (write f1) = Some f1
  ∧ made (write f1) = [].
Proof.
  intros write Hoff. subst write. cbn beta. unfold write_spec_to_h5.
  cbn beta iota zeta. fold (mount h5path).
  set (a := default ∅ create_dataset_args).
  destruct (visititems_off_alias (mount h5path) link_type a sfh5
              (mkState f [] []) Hoff) as (Hok & _ & Hall).
  destruct (visititems (mount h5path) false link_type a sfh5 (mkState f [] []))
    as [r st1]. cbn [fst snd] in *. subst r. cbn [target result].
  intros _ [= <-].
  destruct (visititems_all_bound (mount h5path) link_type a sfh5
              (mkState (h5f st1) [] []) Hoff Hall) as (Hok' & Hf & Hc).
  destruct (visititems (mount h5path) false link_type a sfh5
              (mkState (h5f st1) [] [])) as [r st2].
  cbn [fst snd h5f calls] in *. subst r. cbn [result target made].
  by rewrite Hf, Hc.
Qed.

End Rerun.

Section RerunOnSamples.
Import Sample.

(** The theorem on the tree reduced to a title, into an empty file. *)
Lemma rerun_off_alias_is_skip_witness :
  Forall (off_alias (mount "/")) title_tree
  ∧ result (write_spec_to_h5 SpecFileH5_nofile File_nofile
              (Opened title_tree) (Opened h5_empty) "/" "a" false "hard" None)
    = Ok tt
  ∧ ∃ f1,
      target (write_spec_to_h5 SpecFileH5_nofile File_nofile
                (Opened title_tree) (Opened h5_empty) "/" "a" false "hard"
                None) = Some f1
      ∧ result (write_spec_to_h5 SpecFileH5_nofile File_nofile
                  (Opened title_tree) (Opened f1) "/" "a" false "hard" None)
        = Ok tt
      ∧ target (write_spec_to_h5 SpecFileH5_nofile File_nofile
                  (Opened title_tree) (Opened f1) "/" "a" false "hard" None)
        = Some f1
      ∧ made (write_spec_to_h5 SpecFileH5_nofile File_nofile
                (Opened title_tree) (Opened f1) "/" "a" false "hard" None)
        = [].
Proof.
  assert (Forall (off_alias (mount "/")) title_tree) as Hoff.
  { repeat constructor; vm_compute; reflexivity. }
  assert (result (write_spec_to_h5 SpecFileH5_nofile File_nofile
                    (Opened title_tree) (Opened h5_empty) "/" "a" false "hard"
                    None) = Ok tt) as Hr by (vm_compute; reflexivity).
  split; [exact Hoff|]. split; [exact Hr|].
  destruct (target (write_spec_to_h5 SpecFileH5_nofile File_nofile
                      (Opened title_tree) (Opened h5_empty) "/" "a" false
                      "hard" None)) as [f1|] eqn:Ht; [|by vm_compute in Ht].
  exists f1. split; [reflexivity|].
  exact (rerun_off_alias_is_skip SpecFileH5_nofile File_nofile title_tree
           h5_empty f1 "/" "a" "hard" None Hoff Hr Ht).
Defined.

End RerunOnSamples.
